(** * Stemmy: workout session timer, persisted-state container, daily archiver

    A shallow embedding of the state logic of the application:
    - [Timer]      : [src/hooks/useTimer.ts] (reducer and hook),
    - [Persisted]  : [usePersistedState] (load, persist, midnight check),
    - [App]        : [src/contexts/AppContext.tsx] (rollover archiver,
                     prayer clean-up effect, daily actions, workout
                     statistics, custom workouts),
    - [Engine]     : the skip handler of [WorkoutEngine.tsx].

    JavaScript numbers that hold counters and whole seconds are [Z];
    strings are [string]; arrays are [list]. *)

From Stdlib Require Import ZArith List String Bool Lia.
From Stdlib Require Import Sorting.Sorted Sorting.Permutation.
From Stdlib Require Import Structures.OrderedTypeEx.
Import ListNotations.
Open Scope string_scope.
Open Scope Z_scope.

(** ** Exceptions

    A JavaScript computation either returns or throws. *)

Inductive outcome (A : Type) : Type :=
| Ok (a : A)
| Throw (e : string).
Arguments Ok {A} a.
Arguments Throw {A} e.

Definition bind {A B : Type} (m : outcome A) (k : A -> outcome B) : outcome B :=
  match m with
  | Ok a => k a
  | Throw e => Throw e
  end.

(** [xs[i]] for a JavaScript array: [None] stands for [undefined]. *)
Definition nthZ {A : Type} (xs : list A) (i : Z) : option A :=
  if i <? 0 then None else nth_error xs (Z.to_nat i).

Definition lengthZ {A : Type} (xs : list A) : Z := Z.of_nat (List.length xs).

(** * The session timer (useTimer.ts) *)

Module Timer.

Inductive TimerPhase : Type := IDLE | PREP | WORK | REST | COMPLETE.

Record Exercise : Type := mkExercise {
  name : string;
  detail : string;
  sets : Z;
  work : Z;
  rest : Z
}.

Record TimerState : Type := mkTimerState {
  phase : TimerPhase;
  timeRemaining : Z;
  currentSet : Z;
  totalSets : Z;
  currentExerciseIndex : Z;
  totalExercises : Z;
  workTime : Z;
  restTime : Z;
  isRunning : bool
}.

Definition PREP_TIME : Z := 5.

Module Action.
Inductive t : Type :=
| INIT (exercises : list Exercise)
| START
| PAUSE
| RESUME
| TICK
| NEXT_PHASE
| NEXT_SET
| NEXT_EXERCISE
| SET_EXERCISE (exercise : Exercise) (index : Z) (totalExercises : Z)
| RESET
| COMPLETE.
End Action.

Definition initialState : TimerState :=
  {| phase := IDLE; timeRemaining := 0; currentSet := 0; totalSets := 0;
     currentExerciseIndex := 0; totalExercises := 0; workTime := 0;
     restTime := 0; isRunning := false |}.

(** Object spread with one overridden field, [{...state, f: v}]. *)
Definition with_phase (p : TimerPhase) (s : TimerState) : TimerState :=
  mkTimerState p (timeRemaining s) (currentSet s) (totalSets s)
    (currentExerciseIndex s) (totalExercises s) (workTime s) (restTime s)
    (isRunning s).

Definition with_timeRemaining (t : Z) (s : TimerState) : TimerState :=
  mkTimerState (phase s) t (currentSet s) (totalSets s)
    (currentExerciseIndex s) (totalExercises s) (workTime s) (restTime s)
    (isRunning s).

Definition with_currentSet (n : Z) (s : TimerState) : TimerState :=
  mkTimerState (phase s) (timeRemaining s) n (totalSets s)
    (currentExerciseIndex s) (totalExercises s) (workTime s) (restTime s)
    (isRunning s).

Definition with_isRunning (b : bool) (s : TimerState) : TimerState :=
  mkTimerState (phase s) (timeRemaining s) (currentSet s) (totalSets s)
    (currentExerciseIndex s) (totalExercises s) (workTime s) (restTime s) b.

Definition timerReducer (state : TimerState) (action : Action.t) : TimerState :=
  match action with
  | Action.INIT exercises =>
      match exercises with
      | [] => initialState
      | firstExercise :: _ =>
          {| phase := IDLE;
             timeRemaining := PREP_TIME;
             currentSet := 1;
             totalSets := sets firstExercise;
             currentExerciseIndex := 0;
             totalExercises := lengthZ exercises;
             workTime := work firstExercise;
             restTime := rest firstExercise;
             isRunning := isRunning initialState |}
      end
  | Action.START =>
      with_isRunning true (with_timeRemaining PREP_TIME (with_phase PREP state))
  | Action.PAUSE => with_isRunning false state
  | Action.RESUME => with_isRunning true state
  | Action.TICK =>
      if negb (isRunning state) then state
      else with_timeRemaining (Z.max 0 (timeRemaining state - 1)) state
  | Action.NEXT_PHASE =>
      match phase state with
      | PREP => with_timeRemaining (workTime state) (with_phase WORK state)
      | WORK =>
          if currentSet state <? totalSets state
          then with_timeRemaining (restTime state) (with_phase REST state)
          else with_timeRemaining (restTime state) (with_phase REST state)
      | REST => state
      | _ => state
      end
  | Action.NEXT_SET =>
      with_timeRemaining (workTime state)
        (with_currentSet (currentSet state + 1) (with_phase WORK state))
  | Action.NEXT_EXERCISE => state
  | Action.SET_EXERCISE exercise index total =>
      {| phase := PREP;
         timeRemaining := PREP_TIME;
         currentSet := 1;
         totalSets := sets exercise;
         currentExerciseIndex := index;
         totalExercises := total;
         workTime := work exercise;
         restTime := rest exercise;
         isRunning := true |}
  | Action.RESET => initialState
  | Action.COMPLETE => with_isRunning false (with_phase COMPLETE state)
  end.

(** ** The hook

    The hook owns the reducer state and [exercisesRef]; the optional
    callbacks of [UseTimerOptions] are recorded as emitted events. *)

Record Hook : Type := mkHook {
  exercisesRef : list Exercise;
  state : TimerState
}.

Inductive Event : Type :=
| OnExerciseComplete (exerciseIndex : Z)
| OnWorkoutComplete.

(** The "Handle phase transitions" effect.  It dispatches at most one
    action; [exercisesRef.current[nextIndex]] may be [undefined], in which
    case the reducer's read of [action.exercise.sets] throws. *)
Definition phaseTransition (exercises : list Exercise) (s : TimerState)
  : outcome (TimerState * list Event) :=
  if (timeRemaining s =? 0) && isRunning s then
    match phase s with
    | PREP => Ok (timerReducer s Action.NEXT_PHASE, [])
    | WORK =>
        if currentSet s <? totalSets s then
          Ok (timerReducer s Action.NEXT_PHASE, [])
        else if currentExerciseIndex s <? totalExercises s - 1 then
          Ok (timerReducer s Action.NEXT_PHASE, [])
        else
          Ok (timerReducer s Action.COMPLETE, [OnWorkoutComplete])
    | REST =>
        if currentSet s <? totalSets s then
          Ok (timerReducer s Action.NEXT_SET, [])
        else if currentExerciseIndex s <? totalExercises s - 1 then
          let nextIndex := currentExerciseIndex s + 1 in
          match nthZ exercises nextIndex with
          | Some nextExercise =>
              Ok (timerReducer s
                    (Action.SET_EXERCISE nextExercise nextIndex
                       (lengthZ exercises)),
                  [OnExerciseComplete (currentExerciseIndex s)])
          | None => Throw "TypeError"
          end
        else
          Ok (timerReducer s Action.COMPLETE, [OnWorkoutComplete])
    | _ => Ok (s, [])
    end
  else Ok (s, []).

(** [useTimer(exercises)] at mount: the reducer starts from
    [initialState] and the ref holds the prop. *)
Definition mount (exercises : list Exercise) : Hook :=
  mkHook exercises initialState.

(** The "Update exercises ref" effect, run when the prop changes. *)
Definition init (exercises : list Exercise) (h : Hook) : Hook :=
  mkHook exercises (timerReducer (state h) (Action.INIT exercises)).

Definition dispatch (a : Action.t) (h : Hook) : Hook :=
  mkHook (exercisesRef h) (timerReducer (state h) a).

Definition start : Hook -> Hook := dispatch Action.START.
Definition pause : Hook -> Hook := dispatch Action.PAUSE.
Definition resume : Hook -> Hook := dispatch Action.RESUME.
Definition tick : Hook -> Hook := dispatch Action.TICK.

Definition reset (h : Hook) : Hook :=
  dispatch (Action.INIT (exercisesRef h)) (dispatch Action.RESET h).

Definition toggle (h : Hook) : Hook :=
  match phase (state h) with
  | IDLE => start h
  | _ => if isRunning (state h) then pause h else resume h
  end.

Definition setExercise (index : Z) (h : Hook) : Hook :=
  if (index >=? 0) && (index <? lengthZ (exercisesRef h)) then
    dispatch (Action.INIT (skipn (Z.to_nat index) (exercisesRef h)))
      (dispatch Action.RESET h)
  else h.

Definition phaseBoundary (h : Hook) : outcome (Hook * list Event) :=
  bind (phaseTransition (exercisesRef h) (state h))
       (fun r => Ok (mkHook (exercisesRef h) (fst r), snd r)).

(** The operations a client or the environment can apply to the hook. *)
Inductive Op : Type :=
| OpInit (exercises : list Exercise)
| OpStart
| OpPause
| OpResume
| OpTick
| OpToggle
| OpReset
| OpSetExercise (index : Z)
| OpPhaseBoundary.

Definition step (h : Hook) (o : Op) : outcome Hook :=
  match o with
  | OpInit exercises => Ok (init exercises h)
  | OpStart => Ok (start h)
  | OpPause => Ok (pause h)
  | OpResume => Ok (resume h)
  | OpTick => Ok (tick h)
  | OpToggle => Ok (toggle h)
  | OpReset => Ok (reset h)
  | OpSetExercise index => Ok (setExercise index h)
  | OpPhaseBoundary => bind (phaseBoundary h) (fun r => Ok (fst r))
  end.

Fixpoint run (ops : list Op) (h : Hook) : outcome Hook :=
  match ops with
  | [] => Ok h
  | o :: ops' => bind (step h o) (run ops')
  end.

(** The data model's constraint on an exercise's durations. *)
Definition exercise_ok (e : Exercise) : Prop := 0 <= work e /\ 0 <= rest e.

Definition op_ok (o : Op) : Prop :=
  match o with
  | OpInit exercises => Forall exercise_ok exercises
  | _ => True
  end.

(** [resume] outside a countdown phase, and [toggle] once the session is
    complete, are the calls a disciplined client does not make. *)
Definition disciplined (s : TimerState) (o : Op) : Prop :=
  match o with
  | OpResume => phase s = PREP \/ phase s = WORK \/ phase s = REST
  | OpToggle => phase s <> COMPLETE
  | _ => True
  end.

Inductive Reachable (guard : TimerState -> Op -> Prop) (h0 : Hook)
  : Hook -> Prop :=
| Reach_mount : Reachable guard h0 h0
| Reach_step (h h' : Hook) (o : Op) :
    Reachable guard h0 h -> op_ok o -> guard (state h) o ->
    step h o = Ok h' -> Reachable guard h0 h'.

Definition any_call (_ : TimerState) (_ : Op) : Prop := True.

(** The ref and the reducer state describe the same plan. *)
Definition consistent (exercises : list Exercise) (s : TimerState) : Prop :=
  0 <= currentExerciseIndex s /\ totalExercises s <= lengthZ exercises.

Fixpoint ticks (n : nat) (s : TimerState) : TimerState :=
  match n with
  | O => s
  | S n' => ticks n' (timerReducer s Action.TICK)
  end.

(** Fields other than [timeRemaining] agree. *)
Definition onlyTimeChanged (s s' : TimerState) : Prop :=
  phase s' = phase s /\ currentSet s' = currentSet s /\
  totalSets s' = totalSets s /\
  currentExerciseIndex s' = currentExerciseIndex s /\
  totalExercises s' = totalExercises s /\ workTime s' = workTime s /\
  restTime s' = restTime s /\ isRunning s' = isRunning s.

(** Fields other than [isRunning] agree. *)
Definition onlyRunningChanged (s s' : TimerState) : Prop :=
  phase s' = phase s /\ timeRemaining s' = timeRemaining s /\
  currentSet s' = currentSet s /\ totalSets s' = totalSets s /\
  currentExerciseIndex s' = currentExerciseIndex s /\
  totalExercises s' = totalExercises s /\ workTime s' = workTime s /\
  restTime s' = restTime s.

(** Invariants of the hook: durations are non-negative and the reducer
    state stays within the plan held by the ref. *)
Definition wellFormed (h : Hook) : Prop :=
  0 <= timeRemaining (state h) /\ 0 <= workTime (state h) /\
  0 <= restTime (state h) /\ consistent (exercisesRef h) (state h) /\
  Forall exercise_ok (exercisesRef h).

Definition stoppedOutsideSession (s : TimerState) : Prop :=
  phase s = IDLE \/ phase s = COMPLETE -> isRunning s = false.

(** ** Sample plans and states *)

Definition oneExercise : list Exercise :=
  [{| name := "Plank"; detail := "Hold"; sets := 1; work := 10; rest := 5 |}].

Definition negativeWork : list Exercise :=
  [{| name := "Plank"; detail := "Hold"; sets := 1; work := -3; rest := 5 |}].

Definition lastSetState : TimerState :=
  {| phase := WORK; timeRemaining := 0; currentSet := 2; totalSets := 2;
     currentExerciseIndex := 0; totalExercises := 1; workTime := 10;
     restTime := 5; isRunning := true |}.

Definition firstExercise : Exercise :=
  {| name := "Push-ups"; detail := "Chest to floor"; sets := 1; work := 10;
     rest := 5 |}.

Definition secondExercise : Exercise :=
  {| name := "Squats"; detail := "Below parallel"; sets := 3; work := 20;
     rest := 7 |}.

Definition twoExercises : list Exercise := [firstExercise; secondExercise].

Definition restAfterFirst : TimerState :=
  {| phase := REST; timeRemaining := 0; currentSet := 1; totalSets := 1;
     currentExerciseIndex := 0; totalExercises := 2; workTime := 10;
     restTime := 5; isRunning := true |}.

(** ** The hook's return value and an uninterrupted session *)

(** [currentExercise: exercisesRef.current[state.currentExerciseIndex] || null] *)
Definition currentExercise (h : Hook) : option Exercise :=
  nthZ (exercisesRef h) (currentExerciseIndex (state h)).

(** The hook left alone for a while: the interval dispatches TICK once a
    second while [isRunning], and the phase-transition effect runs as soon
    as a render shows [timeRemaining === 0].  [Elapses h n h'] says that
    [n] ticks take [h] to [h']. *)
Inductive Elapses : Hook -> nat -> Hook -> Prop :=
| Elapses_now (h : Hook) : Elapses h 0 h
| Elapses_tick (h h' : Hook) (n : nat) :
    isRunning (state h) = true -> timeRemaining (state h) <> 0 ->
    Elapses (tick h) n h' -> Elapses h (S n) h'
| Elapses_boundary (h h1 h' : Hook) (events : list Event) (n : nat) :
    isRunning (state h) = true -> timeRemaining (state h) = 0 ->
    phaseBoundary h = Ok (h1, events) ->
    Elapses h1 n h' -> Elapses h n h'.

(** The same, as a function with fuel: the hook it stops in (because the
    timer no longer runs, or the fuel is spent) and the ticks it took. *)
Fixpoint elapse (fuel : nat) (h : Hook) : outcome (Hook * nat) :=
  match fuel with
  | O => Ok (h, O)
  | S fuel' =>
      if isRunning (state h) then
        if timeRemaining (state h) =? 0 then
          bind (phaseBoundary h) (fun r => elapse fuel' (fst r))
        else
          bind (elapse fuel' (tick h)) (fun r => Ok (fst r, S (snd r)))
      else Ok (h, O)
  end.

(** The reducer state while exercise [e], at index [k] of a plan of
    [total] exercises, is running. *)
Definition during (p : TimerPhase) (t : Z) (set : Z) (e : Exercise)
  (k total : Z) : TimerState :=
  {| phase := p; timeRemaining := t; currentSet := set; totalSets := sets e;
     currentExerciseIndex := k; totalExercises := total; workTime := work e;
     restTime := rest e; isRunning := true |}.

(** Work intervals the timer runs for an exercise: [currentSet] starts at
    1 and the exercise ends once [currentSet < totalSets] fails. *)
Definition rounds (e : Exercise) : Z := Z.max 1 (sets e).

(** Seconds an uninterrupted session of a plan lasts: per exercise the
    preparation, every work interval, and a rest after every work interval
    except the last one of the last exercise. *)
Fixpoint planSeconds (plan : list Exercise) : Z :=
  match plan with
  | [] => 0
  | e :: plan' =>
      PREP_TIME + rounds e * work e
      + match plan' with
        | [] => (rounds e - 1) * rest e
        | _ :: _ => rounds e * rest e
        end
      + planSeconds plan'
  end.

(** [calculateWorkoutDuration] of utils/index.ts. *)
Definition calculateWorkoutDuration (exercises : list Exercise) : Z :=
  fold_left (fun total ex => total + sets ex * work ex + (sets ex - 1) * rest ex)
            exercises 0.

(** The last exercise's state when the session is over. *)
Definition finished (e : Exercise) (k total : Z) : TimerState :=
  {| phase := COMPLETE; timeRemaining := 0; currentSet := rounds e;
     totalSets := sets e; currentExerciseIndex := k; totalExercises := total;
     workTime := work e; restTime := rest e; isRunning := false |}.

(** The reducer state times the exercise the hook reports as current (and
    the hook reports none only when the plan is empty). *)
Definition timesCurrent (h : Hook) : Prop :=
  match currentExercise h with
  | Some e =>
      totalSets (state h) = sets e /\ workTime (state h) = work e /\
      restTime (state h) = rest e
  | None => exercisesRef h = []
  end.

(** A plan of four exercises, and where the list buttons of the workout
    screen leave the hook for its third one: [setExercise(2); start()],
    then left alone until the rest after that exercise's only set is
    over. *)
Definition fourExercises : list Exercise :=
  [{| name := "Plank"; detail := "Hold"; sets := 1; work := 10; rest := 5 |};
   {| name := "Squats"; detail := "Below parallel"; sets := 3; work := 20;
      rest := 7 |};
   {| name := "Rows"; detail := "Pull"; sets := 1; work := 15; rest := 10 |};
   {| name := "Lunges"; detail := "Alternate"; sets := 2; work := 30;
      rest := 8 |}].

Definition jumpToThird : list Op :=
  ([OpInit fourExercises; OpSetExercise 2; OpStart]
     ++ repeat OpTick 5 ++ [OpPhaseBoundary]
     ++ repeat OpTick 15 ++ [OpPhaseBoundary]
     ++ repeat OpTick 10)%list.

Definition threeExercises : list Exercise :=
  [{| name := "Plank"; detail := "Hold"; sets := 1; work := 10; rest := 5 |};
   {| name := "Squats"; detail := "Below parallel"; sets := 3; work := 20;
      rest := 7 |};
   {| name := "Rows"; detail := "Pull"; sets := 2; work := 15; rest := 10 |}].

End Timer.

(** * The persisted-state container (usePersistedState) *)

Module Persisted.

Section Container.

(** [T] is the type of the held value; [W] is whatever the rollover
    callback writes to outside the container (the history archive, for
    the daily state). *)
Variables T W : Type.

Record PersistedData : Type := mkPersistedData {
  date : string;
  value : T
}.

(** What [localStorage.getItem(key)] may hold: a string [JSON.parse]
    rejects, or the JSON text of an envelope. *)
Inductive Item : Type :=
| Garbage
| Json (data : PersistedData).

Record Sys : Type := mkSys {
  clock : string;            (* what getTodayDateString() returns *)
  storage : option Item;     (* the localStorage slot of [key] *)
  live : T;                  (* the React state *)
  console : list string;     (* console.error lines *)
  world : W
}.

(** A rollover callback runs on the outer world and returns or throws. *)
Definition Callback : Type := T -> string -> W -> W * outcome unit.

(** Computations over [Sys] that return or throw. *)
Definition M (A : Type) : Type := Sys -> Sys * outcome A.

Definition ret {A : Type} (a : A) : M A := fun s => (s, Ok a).

Definition throw {A : Type} (e : string) : M A := fun s => (s, Throw e).

Definition bindM {A B : Type} (m : M A) (k : A -> M B) : M B :=
  fun s =>
    match m s with
    | (s', Ok a) => k a s'
    | (s', Throw e) => (s', Throw e)
    end.

(** [try { m } catch (e) { handler(e) }] *)
Definition try_catch {A : Type} (m : M A) (handler : string -> M A) : M A :=
  fun s =>
    match m s with
    | (s', Ok a) => (s', Ok a)
    | (s', Throw e) => handler e s'
    end.

Notation "x <- m ;; k" := (bindM m (fun x => k))
  (at level 61, m at next level, right associativity).
Notation "m ;;; k" := (bindM m (fun _ => k))
  (at level 61, right associativity).

Definition getTodayDateString : M string := fun s => (s, Ok (clock s)).

Definition getItem : M (option Item) := fun s => (s, Ok (storage s)).

Definition setItem (d : PersistedData) : M unit :=
  fun s => (mkSys (clock s) (Some (Json d)) (live s) (console s) (world s),
            Ok tt).

Definition JSON_parse (i : Item) : M PersistedData :=
  match i with
  | Garbage => throw "SyntaxError"
  | Json d => ret d
  end.

Definition setState (v : T) : M unit :=
  fun s => (mkSys (clock s) (storage s) v (console s) (world s), Ok tt).

Definition console_error (msg : string) : M unit :=
  fun s => (mkSys (clock s) (storage s) (live s) (console s ++ [msg]) (world s),
            Ok tt).

Definition call (f : Callback) (staleValue : T) (staleDate : string) : M unit :=
  fun s =>
    let (w', r) := f staleValue staleDate (world s) in
    (mkSys (clock s) (storage s) (live s) (console s) w', r).

Variable defaultValue : T.
Variable resetAtMidnight : bool.
Variable onReset : option Callback.

(** The lazy initializer passed to [useState]. *)
Definition initializer : M T :=
  try_catch
    (stored <- getItem ;;
     match stored with
     | None => ret defaultValue
     | Some item =>
         parsed <- JSON_parse item ;;
         if resetAtMidnight then
           today <- getTodayDateString ;;
           if negb (date parsed =? today)%string then
             match onReset with
             | Some f =>
                 try_catch (call f (value parsed) (date parsed))
                           (fun e => console_error "onReset failed")
             | None => ret tt
             end ;;;
             ret defaultValue
           else ret (value parsed)
         else ret (value parsed)
     end)
    (fun _ => ret defaultValue).

(** Mounting the hook: the initializer's result becomes the live value. *)
Definition load (s : Sys) : Sys :=
  match initializer s with
  | (s', Ok v) => mkSys (clock s') (storage s') v (console s') (world s')
  | (s', Throw _) => s'
  end.

(** The "persist whenever state changes" effect. *)
Definition persist : M unit :=
  today <- getTodayDateString ;;
  fun s => setItem (mkPersistedData today (live s)) s.

Definition checkMidnight : M unit :=
  try_catch
    (stored <- getItem ;;
     match stored with
     | None => ret tt
     | Some item =>
         parsed <- JSON_parse item ;;
         today <- getTodayDateString ;;
         if negb (date parsed =? today)%string then
           match onReset with
           | Some f => call f (value parsed) (date parsed)
           | None => ret tt
           end ;;;
           setState defaultValue
         else ret tt
     end)
    (fun _ => ret tt).

(** The interval and visibility handlers exist only with
    [resetAtMidnight]; both run [checkMidnight]. *)
Definition stalenessCheck (s : Sys) : Sys :=
  if resetAtMidnight then fst (checkMidnight s) else s.

Definition reset : M unit := setState defaultValue.

End Container.

Arguments mkPersistedData {T} date value.
Arguments date {T} p.
Arguments value {T} p.
Arguments Garbage {T}.
Arguments Json {T} data.
Arguments mkSys {T W} clock storage live console world.
Arguments clock {T W} s.
Arguments storage {T W} s.
Arguments live {T W} s.
Arguments console {T W} s.
Arguments world {T W} s.
Arguments load {T W} defaultValue resetAtMidnight onReset s.
Arguments initializer {T W} defaultValue resetAtMidnight onReset.
Arguments checkMidnight {T W} defaultValue onReset.
Arguments stalenessCheck {T W} defaultValue resetAtMidnight onReset s.
Arguments persist {T W}.

(** The calendar moving on while the container stays as it is. *)
Definition setClock {T W : Type} (today : string) (s : Sys T W) : Sys T W :=
  mkSys today (storage s) (live s) (console s) (world s).

(** ** A sample container: an integer counter with a throwing callback *)

Definition staleSys : Sys Z unit :=
  mkSys "2024-01-02"
        (Some (Json (mkPersistedData "2024-01-01" 7)))
        7 [] tt.

Definition failingCallback : Callback Z unit :=
  fun _ _ w => (w, Throw "TypeError").

(** A callback that records what it is called with. *)
Definition recordingCallback : Callback Z (list (Z * string)) :=
  fun staleValue staleDate w => ((w ++ [(staleValue, staleDate)])%list, Ok tt).

Definition reopenedSys : Sys Z (list (Z * string)) :=
  mkSys "2024-01-02"
        (Some (Json (mkPersistedData "2024-01-01" 7)))
        0 [] [].

End Persisted.

(** * Application state (AppContext.tsx) *)

Module App.

Inductive Routine : Type := RoutineA | RoutineB.
Inductive Goal : Type := lose | maintain | gain.
Inductive PrayerType : Type := alone | jamat.
Inductive TaskType : Type :=
| type_meal | type_supplement | type_workout | type_habit | type_hydration
| type_cardio.
Inductive TaskCategory : Type := morning | afternoon | evening.

Record UserProfile : Type := mkUserProfile {
  user_name : string;
  email : string;
  goal : Goal;
  routine : Routine;
  weight : Z;
  height : Z;
  age : Z;
  isOnboarded : bool
}.

Record TaskMeta : Type := mkTaskMeta {
  meta_protein : option Z;
  meta_calories : option Z;
  meta_workoutId : option string;
  meta_routine : option Routine
}.

Record Task : Type := mkTask {
  task_id : string;
  title : string;
  subtitle : option string;
  time : string;
  task_type : TaskType;
  task_icon : option string;
  category : option TaskCategory;
  task_completed : option bool;
  meta : option TaskMeta
}.

Record NonNegotiable : Type := mkNonNegotiable {
  nn_id : string;
  label : string;
  nn_icon : option string;
  nn_completed : option bool
}.

Record PrayerStatus : Type := mkPrayerStatus {
  id : string;
  type : PrayerType;
  completedAt : string
}.

(** An element of [daily.prayers] as it can come back from storage: the
    legacy schema kept a bare identifier, the current one an object. *)
Inductive PrayerEntry : Type :=
| Legacy (s : string)
| Status (p : PrayerStatus).

Record ProteinTracker : Type := mkProtein { current : Z; protein_goal : Z }.
Record HydrationTracker : Type := mkHydration { glasses : Z; hydration_goal : Z }.
Record MindfulnessTracker : Type := mkMindfulness { minutes : Z; mindfulness_goal : Z }.

Record DailyState : Type := mkDailyState {
  daily_date : string;
  tasks : list Task;
  protein : ProteinTracker;
  hydration : HydrationTracker;
  nonNegotiables : list NonNegotiable;
  activeRoutine : Routine;
  mindfulness : MindfulnessTracker;
  prayers : list PrayerEntry
}.

Record WorkoutHistoryItem : Type := mkWorkoutHistoryItem {
  item_date : string;
  workoutId : string;
  duration : Z;
  exercisesCompleted : Z
}.

Record WorkoutStats : Type := mkWorkoutStats {
  totalWorkouts : Z;
  totalTime : Z;
  lastWorkout : option string;
  streak : Z;
  stats_history : list WorkoutHistoryItem
}.

Record HistoryRecord : Type := mkHistoryRecord {
  date : string;
  workout_count : Z;
  workout_duration : Z;
  workout_calories : Z;
  nutrition_protein : Z;
  nutrition_water : Z;
  mindfulness_minutes : Z;
  prayers_completed : list PrayerEntry;
  prayers_total : Z
}.

Record WorkoutPreset : Type := mkWorkoutPreset {
  preset_id : string;
  preset_name : string;
  preset_icon : string;
  exercises : list Timer.Exercise;
  preset_routine : option Routine
}.

Definition DEFAULT_STATS : WorkoutStats :=
  {| totalWorkouts := 0; totalTime := 0; lastWorkout := None; streak := 0;
     stats_history := [] |}.

(** The state slices held by [AppProvider], one persisted key each. *)
Record AppState : Type := mkAppState {
  user : UserProfile;
  stats : WorkoutStats;
  history : list HistoryRecord;
  daily : DailyState;
  activeWorkout : option WorkoutPreset;
  customWorkouts : list WorkoutPreset;
  notificationsEnabled : bool;
  voiceEnabled : bool
}.

Definition setStats (v : WorkoutStats) (s : AppState) : AppState :=
  mkAppState (user s) v (history s) (daily s) (activeWorkout s)
    (customWorkouts s) (notificationsEnabled s) (voiceEnabled s).

Definition setHistory (f : list HistoryRecord -> list HistoryRecord)
  (s : AppState) : AppState :=
  mkAppState (user s) (stats s) (f (history s)) (daily s) (activeWorkout s)
    (customWorkouts s) (notificationsEnabled s) (voiceEnabled s).

Definition setDaily (f : DailyState -> DailyState) (s : AppState) : AppState :=
  mkAppState (user s) (stats s) (history s) (f (daily s)) (activeWorkout s)
    (customWorkouts s) (notificationsEnabled s) (voiceEnabled s).

(** ** Array.prototype.sort

    The sort is stable; with a comparator that is a total preorder every
    stable sort returns the list computed here. *)
Section Sort.
Variable E : Type.
Variable compareFn : E -> E -> comparison.

Fixpoint insert (x : E) (l : list E) : list E :=
  match l with
  | [] => [x]
  | y :: l' =>
      match compareFn x y with
      | Gt => y :: insert x l'
      | _ => x :: y :: l'
      end
  end.

Definition sort (l : list E) : list E := fold_right insert [] l.
End Sort.
Arguments insert {E} compareFn x l.
Arguments sort {E} compareFn l.

(** [a.localeCompare(b)] on date strings: digits and hyphens collate in
    code-point order. *)
Definition localeCompare (a b : string) : comparison := String.compare a b.

Definition sum (l : list Z) : Z := fold_left Z.add l 0.

(** [Math.round(x / 60 * 10)], in exact arithmetic. *)
Definition calories (seconds : Z) : Z := (seconds * 10 + 30) / 60.

(** ** saveDailyProgress *)

Definition makeRecord (st : WorkoutStats) (staleDaily : DailyState)
  (staleDate : string) : HistoryRecord :=
  let dayWorkouts :=
    filter (fun w => String.prefix staleDate (item_date w)) (stats_history st) in
  {| date := staleDate;
     workout_count := lengthZ dayWorkouts;
     workout_duration := sum (map duration dayWorkouts);
     workout_calories := calories (sum (map duration dayWorkouts));
     nutrition_protein := current (protein staleDaily);
     nutrition_water := glasses (hydration staleDaily);
     mindfulness_minutes := minutes (mindfulness staleDaily);
     prayers_completed := prayers staleDaily;
     prayers_total := 5 |}.

(** The comparator [(a, b) => b.date.localeCompare(a.date)]. *)
Definition byDateDesc (a b : HistoryRecord) : comparison :=
  localeCompare (date b) (date a).

(** The updater handed to [setHistory]. *)
Definition archive (staleDate : string) (record : HistoryRecord)
  (prev : list HistoryRecord) : list HistoryRecord :=
  if existsb (fun h => (date h =? staleDate)%string) prev then prev
  else sort byDateDesc (prev ++ [record]).

Definition saveDailyProgress (staleDaily : DailyState) (staleDate : string)
  (s : AppState) : AppState :=
  setHistory (archive staleDate (makeRecord (stats s) staleDaily staleDate)) s.

Definition resetStats (s : AppState) : AppState :=
  setHistory (fun _ => []) (setStats DEFAULT_STATS s).

(** ** The prayer clean-up and migration effect *)

(** A JavaScript [Map] keeps its keys in insertion order. *)
Definition JsMap : Type := list (string * PrayerStatus).

Definition has (k : string) (m : JsMap) : bool :=
  existsb (fun kv => (fst kv =? k)%string) m.

Fixpoint set (k : string) (v : PrayerStatus) (m : JsMap) : JsMap :=
  match m with
  | [] => [(k, v)]
  | (k', v') :: m' =>
      if (k' =? k)%string then (k, v) :: m' else (k', v') :: set k v m'
  end.

Definition values (m : JsMap) : list PrayerStatus := map snd m.

(** [new Map()] *)
Definition newMap : JsMap := [].

(** Truthiness of [p.id] for a string id. *)
Definition truthy (s : string) : bool := negb (s =? EmptyString)%string.

Definition isString (p : PrayerEntry) : bool :=
  match p with Legacy _ => true | Status _ => false end.

(** One iteration of the [forEach] body, on [(uniquePrayers, hasChanges)]. *)
Definition visit (now : string) (acc : JsMap * bool) (p : PrayerEntry)
  : JsMap * bool :=
  let (uniquePrayers, hasChanges) := acc in
  match p with
  | Legacy s =>
      if negb (has s uniquePrayers)
      then (set s (mkPrayerStatus s alone now) uniquePrayers, true)
      else (uniquePrayers, hasChanges)
  | Status st =>
      if truthy (id st) then
        if negb (has (id st) uniquePrayers)
        then (set (id st) st uniquePrayers, hasChanges)
        else (uniquePrayers, true)
      else (uniquePrayers, hasChanges)
  end.

(** The effect body: [Some l] when it calls [setDaily] with prayer list
    [l], [None] when it leaves the state alone. *)
Definition cleanup (now : string) (ps : list PrayerEntry)
  : option (list PrayerEntry) :=
  if lengthZ ps >? 0 then
    let (uniquePrayers, hasChanges) :=
      fold_left (visit now) ps (newMap, false) in
    if hasChanges
       || negb (lengthZ uniquePrayers =? lengthZ ps)
       || existsb isString ps
    then Some (map Status (values uniquePrayers))
    else None
  else None.

Definition with_prayers (ps : list PrayerEntry) (d : DailyState) : DailyState :=
  mkDailyState (daily_date d) (tasks d) (protein d) (hydration d)
    (nonNegotiables d) (activeRoutine d) (mindfulness d) ps.

Definition cleanupEffect (now : string) (s : AppState) : AppState :=
  match cleanup now (prayers (daily s)) with
  | Some ps => setDaily (with_prayers ps) s
  | None => s
  end.

(** The list the effect leaves in [daily.prayers]. *)
Definition normalized (now : string) (ps : list PrayerEntry) : list PrayerEntry :=
  match cleanup now ps with
  | Some ps' => ps'
  | None => ps
  end.

(** The map entry under which the loop files a status. *)
Definition keyed (p : PrayerStatus) : string * PrayerStatus := (id p, p).

(** ** The normalization as the specification words it *)

Definition toStatus (now : string) (p : PrayerEntry) : PrayerStatus :=
  match p with
  | Legacy s => mkPrayerStatus s alone now
  | Status st => st
  end.

Definition entry_id (p : PrayerEntry) : string :=
  match p with
  | Legacy s => s
  | Status st => id st
  end.

(** Keep the first occurrence of every id. *)
Fixpoint dedupFirst (seen : list string) (l : list PrayerStatus)
  : list PrayerStatus :=
  match l with
  | [] => []
  | p :: l' =>
      if existsb (fun k => (k =? id p)%string) seen then dedupFirst seen l'
      else p :: dedupFirst (seen ++ [id p]) l'
  end.

Definition spec_normalize (now : string) (ps : list PrayerEntry)
  : list PrayerEntry :=
  map Status (dedupFirst [] (map (toStatus now) ps)).

(** Entries the effect looks at: strings, and objects with a truthy id. *)
Definition kept (p : PrayerEntry) : bool :=
  match p with
  | Legacy _ => true
  | Status st => truthy (id st)
  end.

Definition countDate (d : string) (h : list HistoryRecord) : nat :=
  List.length (filter (fun r => (date r =? d)%string) h).

Definition countId (k : string) (ps : list PrayerEntry) : nat :=
  List.length (filter (fun p => (entry_id p =? k)%string) ps).

(** Date-descending order of the archive. *)
Definition newerFirst (a b : HistoryRecord) : Prop :=
  String.leb (date b) (date a) = true.

(** ** Sample data *)

Definition DEFAULT_USER : UserProfile :=
  {| user_name := EmptyString; email := EmptyString; goal := maintain;
     routine := RoutineA; weight := 70; height := 175; age := 25;
     isOnboarded := false |}.

Definition fajrJamat : PrayerStatus :=
  {| id := "fajr"; type := jamat; completedAt := "2024-01-01T05:10:00.000Z" |}.

Definition legacyPrayers : list PrayerEntry := [Legacy "fajr"; Status fajrJamat].

Definition anonymousPrayer : PrayerStatus :=
  {| id := EmptyString; type := jamat;
     completedAt := "2024-01-01T05:10:00.000Z" |}.

Definition sampleDaily : DailyState :=
  {| daily_date := "2024-01-01"; tasks := [];
     protein := mkProtein 120 140; hydration := mkHydration 6 8;
     nonNegotiables := []; activeRoutine := RoutineA;
     mindfulness := mkMindfulness 15 30; prayers := [Status fajrJamat] |}.

Definition sampleStats : WorkoutStats :=
  {| totalWorkouts := 1; totalTime := 1800; lastWorkout := Some "2024-01-01";
     streak := 1;
     stats_history :=
       [mkWorkoutHistoryItem "2024-01-01T18:30:00.000Z" "push-day" 1800 6] |}.

Definition sampleState : AppState :=
  {| user := DEFAULT_USER; stats := sampleStats; history := [];
     daily := sampleDaily; activeWorkout := None; customWorkouts := [];
     notificationsEnabled := false; voiceEnabled := true |}.

(** ** Daily actions *)

Definition with_tasks (ts : list Task) (d : DailyState) : DailyState :=
  mkDailyState (daily_date d) ts (protein d) (hydration d)
    (nonNegotiables d) (activeRoutine d) (mindfulness d) (prayers d).

Definition with_protein (p : ProteinTracker) (d : DailyState) : DailyState :=
  mkDailyState (daily_date d) (tasks d) p (hydration d)
    (nonNegotiables d) (activeRoutine d) (mindfulness d) (prayers d).

Definition with_hydration (h : HydrationTracker) (d : DailyState) : DailyState :=
  mkDailyState (daily_date d) (tasks d) (protein d) h
    (nonNegotiables d) (activeRoutine d) (mindfulness d) (prayers d).

Definition with_mindfulness (m : MindfulnessTracker) (d : DailyState)
  : DailyState :=
  mkDailyState (daily_date d) (tasks d) (protein d) (hydration d)
    (nonNegotiables d) (activeRoutine d) m (prayers d).

(** [Number.isSafeInteger]: the whole numbers on which the arithmetic of
    JS numbers is exact.  The counters and deltas below are such numbers
    (grams, glasses, minutes), and what is proved of the three updates is
    stated for them. *)
Definition safeInteger (z : Z) : Prop :=
  - (2 ^ 53 - 1) <= z <= 2 ^ 53 - 1.

(** [counter + delta] is computed without rounding: both operands and the
    sum are safe integers. *)
Definition exactSum (counter delta : Z) : Prop :=
  safeInteger counter /\ safeInteger delta /\ safeInteger (counter + delta).

Definition updateProtein (delta : Z) (prev : DailyState) : DailyState :=
  with_protein
    (mkProtein (Z.max 0 (current (protein prev) + delta))
               (protein_goal (protein prev))) prev.

Definition updateHydration (delta : Z) (prev : DailyState) : DailyState :=
  with_hydration
    (mkHydration (Z.max 0 (glasses (hydration prev) + delta))
                 (hydration_goal (hydration prev))) prev.

Definition updateMindfulness (delta : Z) (prev : DailyState) : DailyState :=
  with_mindfulness
    (mkMindfulness (Z.max 0 (minutes (mindfulness prev) + delta))
                   (mindfulness_goal (mindfulness prev))) prev.

(** [!task.completed], where a missing [completed] is falsy. *)
Definition notCompleted (c : option bool) : option bool :=
  match c with
  | Some b => Some (negb b)
  | None => Some true
  end.

Definition with_completed (c : option bool) (t : Task) : Task :=
  mkTask (task_id t) (title t) (subtitle t) (time t) (task_type t)
    (task_icon t) (category t) c (meta t).

Definition toggleTask (taskId : string) (prev : DailyState) : DailyState :=
  with_tasks
    (map (fun task =>
            if (task_id task =? taskId)%string
            then with_completed (notCompleted (task_completed task)) task
            else task)
         (tasks prev)) prev.

Definition deleteTask (taskId : string) (prev : DailyState) : DailyState :=
  with_tasks
    (filter (fun task => negb (task_id task =? taskId)%string) (tasks prev))
    prev.

(** The comparator [(a, b) => a.time.localeCompare(b.time)].  Times are
    free text ("9:30" as well as "09:30"), on which the order is the host's
    collation: [collate] stands for [String.prototype.localeCompare]. *)
Definition byTime (collate : string -> string -> comparison) (a b : Task)
  : comparison :=
  collate (time a) (time b).

(** [addTask]; [newId] is the generated [custom-...] identifier, which
    replaces whatever id the argument carries. *)
Definition addTask (collate : string -> string -> comparison)
  (newId : string) (task : Task) (prev : DailyState) : DailyState :=
  let newTask :=
    mkTask newId (title task) (subtitle task) (time task) (task_type task)
      (task_icon task) (category task) (task_completed task) (meta task) in
  with_tasks (sort (byTime collate) (tasks prev ++ [newTask])%list) prev.

(** [p.id] of an element of [daily.prayers]: a bare string has none. *)
Definition idOf (p : PrayerEntry) : option string :=
  match p with
  | Legacy _ => None
  | Status st => Some (id st)
  end.

(** [p.id === id] *)
Definition hasId (k : string) (p : PrayerEntry) : bool :=
  match idOf p with
  | Some k' => (k' =? k)%string
  | None => false
  end.

Definition PrayerType_eqb (a b : PrayerType) : bool :=
  match a, b with
  | alone, alone => true
  | jamat, jamat => true
  | _, _ => false
  end.

(** [{ ...p, type }] *)
Definition retype (t : PrayerType) (p : PrayerEntry) : PrayerEntry :=
  match p with
  | Legacy s => Legacy s
  | Status st => Status (mkPrayerStatus (id st) t (completedAt st))
  end.

Definition markPrayer (now : string) (k : string) (t : PrayerType)
  (prev : DailyState) : DailyState :=
  let existing := find (hasId k) (prayers prev) in
  let newPrayers :=
    match existing with
    | Some (Status st) =>
        if PrayerType_eqb (type st) t
        then filter (fun p => negb (hasId k p)) (prayers prev)
        else map (fun p => if hasId k p then retype t p else p) (prayers prev)
    | Some (Legacy _) =>
        map (fun p => if hasId k p then retype t p else p) (prayers prev)
    | None => (prayers prev ++ [Status (mkPrayerStatus k t now)])%list
    end in
  with_prayers newPrayers prev.

(** [handleQuickPrayer] of the bottom navigation bar. *)
Definition PRAYER_ORDER : list string :=
  ["fajr"; "dhuhr"; "asr"; "maghrib"; "isha"].

Definition includes (ids : list (option string)) (k : string) : bool :=
  existsb (fun o => match o with
                    | Some k' => (k' =? k)%string
                    | None => false
                    end) ids.

Definition handleQuickPrayer (now : string) (d : DailyState) : DailyState :=
  let completedIds := map idOf (prayers d) in
  match find (fun k => negb (includes completedIds k)) PRAYER_ORDER with
  | Some nextPrayer => markPrayer now nextPrayer alone d
  | None => d
  end.

(** ** Workout statistics *)

Definition setActiveWorkout (w : option WorkoutPreset) (s : AppState) : AppState :=
  mkAppState (user s) (stats s) (history s) (daily s) w
    (customWorkouts s) (notificationsEnabled s) (voiceEnabled s).

Definition setCustomWorkouts (f : list WorkoutPreset -> list WorkoutPreset)
  (s : AppState) : AppState :=
  mkAppState (user s) (stats s) (history s) (daily s) (activeWorkout s)
    (f (customWorkouts s)) (notificationsEnabled s) (voiceEnabled s).

(** Truthiness of [prev.lastWorkout]. *)
Definition truthyDate (o : option string) : bool :=
  match o with
  | Some s => truthy s
  | None => false
  end.

Definition optionIs (o : option string) (s : string) : bool :=
  match o with
  | Some s' => (s' =? s)%string
  | None => false
  end.

Definition isWorkoutTask (t : Task) : bool :=
  match task_type t with
  | type_workout => true
  | _ => false
  end.

(** [recordWorkout]; [today] and [yesterday] are the two dates read from
    the clock and [nowIso] the full timestamp. *)
Definition recordWorkout (today yesterday nowIso : string)
  (workoutId' : string) (duration' exercises' : Z) (s : AppState) : AppState :=
  let prev := stats s in
  let lastDate := lastWorkout prev in
  let newStreak :=
    if optionIs lastDate today then Z.max 1 (streak prev)
    else if truthyDate lastDate then
      (if optionIs lastDate yesterday then streak prev + 1 else 1)
    else 1 in
  let stats' :=
    {| totalWorkouts := totalWorkouts prev + 1;
       totalTime := totalTime prev + duration';
       lastWorkout := Some today;
       streak := newStreak;
       stats_history :=
         (stats_history prev
          ++ [mkWorkoutHistoryItem nowIso workoutId' duration' exercises'])%list
    |} in
  setActiveWorkout None
    (setDaily
       (fun d => with_tasks
                   (map (fun task => if isWorkoutTask task
                                     then with_completed (Some true) task
                                     else task) (tasks d)) d)
       (setStats stats' s)).

(** ** Custom workouts *)

(** [xs.map((x, i) => ...)] and [xs.filter((x, i) => ...)] *)
Fixpoint mapi {X Y : Type} (f : X -> Z -> Y) (i : Z) (xs : list X) : list Y :=
  match xs with
  | [] => []
  | x :: xs' => f x i :: mapi f (i + 1) xs'
  end.

Fixpoint filteri {X : Type} (f : X -> Z -> bool) (i : Z) (xs : list X)
  : list X :=
  match xs with
  | [] => []
  | x :: xs' => if f x i then x :: filteri f (i + 1) xs' else filteri f (i + 1) xs'
  end.

Definition with_exercises (es : list Timer.Exercise) (w : WorkoutPreset)
  : WorkoutPreset :=
  mkWorkoutPreset (preset_id w) (preset_name w) (preset_icon w) es
    (preset_routine w).

Definition addExercise (workoutId' : string) (exercise : Timer.Exercise)
  (s : AppState) : AppState :=
  setCustomWorkouts
    (map (fun w => if (preset_id w =? workoutId')%string
                   then with_exercises (exercises w ++ [exercise])%list w
                   else w)) s.

Definition deleteExercise (workoutId' : string) (exerciseIndex : Z)
  (s : AppState) : AppState :=
  setCustomWorkouts
    (map (fun w => if (preset_id w =? workoutId')%string
                   then with_exercises
                          (filteri (fun _ i => negb (i =? exerciseIndex)) 0
                                   (exercises w)) w
                   else w)) s.

Definition deleteWorkout (workoutId' : string) (s : AppState) : AppState :=
  setCustomWorkouts
    (filter (fun w => negb (preset_id w =? workoutId')%string)) s.

(** ** The daily container's rollover callback *)

(** [saveDailyProgress] as the [onReset] of the daily container; the
    outer world it writes to is the application state. *)
Definition rollover : Persisted.Callback DailyState AppState :=
  fun staleDaily staleDate a => (saveDailyProgress staleDaily staleDate a, Ok tt).

Definition staleDailySys : Persisted.Sys DailyState AppState :=
  Persisted.mkSys "2024-01-02"
    (Some (Persisted.Json (Persisted.mkPersistedData "2024-01-01" sampleDaily)))
    sampleDaily [] sampleState.

Definition lunch : Task :=
  {| task_id := "t-lunch"; title := "Lunch"; subtitle := None; time := "13:00";
     task_type := type_meal; task_icon := None; category := Some afternoon;
     task_completed := None; meta := None |}.

(** Entries of a prayer list that carry the id [k]. *)
Definition countMarked (k : string) (ps : list PrayerEntry) : nat :=
  List.length (filter (hasId k) ps).

(** [a.time.localeCompare(b.time) <= 0]: the collation does not put [b]
    strictly before [a]. *)
Definition earlierFirst (collate : string -> string -> comparison)
  (a b : Task) : Prop :=
  collate (time a) (time b) <> Gt.

(** The prayers of [PRAYER_ORDER] that the list does not hold yet. *)
Definition remainingPrayers (d : DailyState) : list string :=
  filter (fun k => negb (includes (map idOf (prayers d)) k)) PRAYER_ORDER.

(** Histories the archiver builds from the empty default. *)
Inductive Archived : list HistoryRecord -> Prop :=
| Archived_empty : Archived []
| Archived_save (st : WorkoutStats) (staleDaily : DailyState)
    (staleDate : string) (prev : list HistoryRecord) :
    Archived prev ->
    Archived (archive staleDate (makeRecord st staleDaily staleDate) prev).

End App.

(** * The workout screen's handlers (WorkoutEngine.tsx) *)

Module Engine.
Import Timer.


End Engine.

(** * Properties of the session timer *)

Section TimerFacts.
Import Timer.

Lemma nthZ_in_range {X : Type} (xs : list X) (i : Z) :
  0 <= i < lengthZ xs -> exists x, nthZ xs i = Some x /\ In x xs.
Proof.
  intros [Hlo Hhi]. unfold nthZ, lengthZ in *.
  destruct (Z.ltb_spec i 0) as [Hneg|_]; [lia|].
  destruct (nth_error xs (Z.to_nat i)) as [x|] eqn:Hnth.
  - exists x. split; [reflexivity|]. eapply nth_error_In; eassumption.
  - apply nth_error_None in Hnth. lia.
Qed.

Lemma ticks_succ (n : nat) (s : TimerState) :
  ticks (S n) s = timerReducer (ticks n s) Action.TICK.
Proof.
  revert s. induction n as [|n IH]; intro s; [reflexivity|].
  change (ticks (S (S n)) s) with (ticks (S n) (timerReducer s Action.TICK)).
  rewrite IH. reflexivity.
Qed.

Lemma ticks_running (n : nat) (s : TimerState) :
  isRunning s = true -> isRunning (ticks n s) = true.
Proof.
  revert s. induction n as [|n IH]; intros s Hrun; [exact Hrun|].
  simpl. apply IH. simpl. rewrite Hrun. exact Hrun.
Qed.

Lemma tick_running_time (s : TimerState) :
  isRunning s = true ->
  timeRemaining (timerReducer s Action.TICK) = Z.max 0 (timeRemaining s - 1).
Proof. intro Hrun. simpl. rewrite Hrun. reflexivity. Qed.

Lemma ticks_time (n : nat) (s : TimerState) :
  isRunning s = true -> 0 <= timeRemaining s ->
  timeRemaining (ticks n s) = Z.max 0 (timeRemaining s - Z.of_nat n).
Proof.
  intros Hrun Hpos. induction n as [|n IH].
  - simpl. lia.
  - rewrite ticks_succ, tick_running_time by (apply ticks_running; exact Hrun).
    rewrite IH. lia.
Qed.

(** C1. A running WORK state at zero goes straight to COMPLETE when it is
    the last set of the last exercise, and otherwise to REST with
    [timeRemaining = restTime]. *)
Theorem work_boundary (exercises : list Exercise) (s : TimerState) :
  isRunning s = true -> phase s = WORK -> timeRemaining s = 0 ->
  exists s' events,
    phaseTransition exercises s = Ok (s', events) /\
    (totalSets s <= currentSet s /\
     totalExercises s - 1 <= currentExerciseIndex s ->
     phase s' = COMPLETE) /\
    (~ (totalSets s <= currentSet s /\
        totalExercises s - 1 <= currentExerciseIndex s) ->
     phase s' = REST /\ timeRemaining s' = restTime s).
Proof.
  intros Hrun Hphase Hzero. unfold phaseTransition.
  rewrite Hrun, Hphase, Hzero. simpl.
  destruct (Z.ltb_spec (currentSet s) (totalSets s)) as [Hset|Hset].
  - eexists; eexists; split; [reflexivity|]. rewrite Hphase. simpl.
    split; [lia|auto].
  - destruct (Z.ltb_spec (currentExerciseIndex s) (totalExercises s - 1))
      as [Hex|Hex].
    + eexists; eexists; split; [reflexivity|]. rewrite Hphase. simpl.
      split; [lia|auto].
    + eexists; eexists; split; [reflexivity|]. simpl. split; [auto|].
      intro Hn. exfalso. apply Hn. split; assumption.
Qed.

Lemma work_boundary_witness :
  exists s' events,
    phaseTransition [] lastSetState = Ok (s', events) /\
    (totalSets lastSetState <= currentSet lastSetState /\
     totalExercises lastSetState - 1 <= currentExerciseIndex lastSetState ->
     phase s' = COMPLETE) /\
    (~ (totalSets lastSetState <= currentSet lastSetState /\
        totalExercises lastSetState - 1 <= currentExerciseIndex lastSetState) ->
     phase s' = REST /\ timeRemaining s' = restTime lastSetState).
Proof.
  apply (work_boundary [] lastSetState); reflexivity.
Defined.

(** The three branches of the REST boundary, for a state within the bounds
    of the plan in the ref: next set of the same exercise; load the
    exercise at the next index of the ref and signal the current index; or
    complete the session. *)
Theorem rest_boundary (exercises : list Exercise) (s : TimerState) :
  isRunning s = true -> phase s = REST -> timeRemaining s = 0 ->
  consistent exercises s ->
  (currentSet s < totalSets s ->
   phaseTransition exercises s =
   Ok ({| phase := WORK; timeRemaining := workTime s;
          currentSet := currentSet s + 1; totalSets := totalSets s;
          currentExerciseIndex := currentExerciseIndex s;
          totalExercises := totalExercises s; workTime := workTime s;
          restTime := restTime s; isRunning := true |}, [])) /\
  (~ currentSet s < totalSets s ->
   currentExerciseIndex s < totalExercises s - 1 ->
   exists next,
     nthZ exercises (currentExerciseIndex s + 1) = Some next /\
     phaseTransition exercises s =
     Ok ({| phase := PREP; timeRemaining := PREP_TIME; currentSet := 1;
            totalSets := sets next;
            currentExerciseIndex := currentExerciseIndex s + 1;
            totalExercises := lengthZ exercises; workTime := work next;
            restTime := rest next; isRunning := true |},
         [OnExerciseComplete (currentExerciseIndex s)])) /\
  (~ currentSet s < totalSets s ->
   ~ currentExerciseIndex s < totalExercises s - 1 ->
   phaseTransition exercises s =
   Ok ({| phase := COMPLETE; timeRemaining := 0;
          currentSet := currentSet s; totalSets := totalSets s;
          currentExerciseIndex := currentExerciseIndex s;
          totalExercises := totalExercises s; workTime := workTime s;
          restTime := restTime s; isRunning := false |},
       [OnWorkoutComplete])).
Proof.
  intros Hrun Hphase Hzero [Hidx Htotal]. unfold phaseTransition.
  rewrite Hrun, Hphase, Hzero. simpl.
  destruct (Z.ltb_spec (currentSet s) (totalSets s)) as [Hset|Hset].
  - split; [|split]; intros; try lia.
    unfold with_timeRemaining, with_currentSet, with_phase. simpl.
    rewrite Hrun. reflexivity.
  - destruct (Z.ltb_spec (currentExerciseIndex s) (totalExercises s - 1))
      as [Hex|Hex].
    + split; [|split]; intros; try lia.
      destruct (nthZ_in_range exercises (currentExerciseIndex s + 1))
        as [next [Hnext _]]; [lia|].
      exists next. rewrite Hnext. split; reflexivity.
    + split; [|split]; intros; try lia.
      unfold with_isRunning, with_phase. simpl. rewrite Hzero. reflexivity.
Qed.

Lemma rest_boundary_witness :
  nthZ twoExercises (currentExerciseIndex restAfterFirst + 1) = Some secondExercise /\
  phaseTransition twoExercises restAfterFirst =
  Ok ({| phase := PREP; timeRemaining := PREP_TIME; currentSet := 1;
         totalSets := 3; currentExerciseIndex := 1; totalExercises := 2;
         workTime := 20; restTime := 7; isRunning := true |},
      [OnExerciseComplete 0]).
Proof.
  destruct (rest_boundary twoExercises restAfterFirst eq_refl eq_refl eq_refl)
    as [_ [Hnext _]].
  - unfold consistent, lengthZ. simpl. lia.
  - destruct Hnext as [next [Hlookup Hstep]]; [simpl; lia | simpl; lia |].
    split; [reflexivity|].
    rewrite Hstep. vm_compute in Hlookup.
    injection Hlookup as <-. reflexivity.
Defined.

(** C2. After a jump the REST boundary does not load the next exercise.
    With [setExercise(2)] on a plan of four the hook times the third
    exercise as index 0 of 2; when its rest is over the boundary loads the
    plan's second exercise, puts [totalExercises] at 4 and signals exercise
    0, where the next exercise is the fourth and the one just finished the
    third. *)
Theorem rest_boundary_after_jump :
  run jumpToThird (mount fourExercises)
  = Ok (mkHook fourExercises
          {| phase := REST; timeRemaining := 0; currentSet := 1;
             totalSets := 1; currentExerciseIndex := 0; totalExercises := 2;
             workTime := 15; restTime := 10; isRunning := true |}) /\
  phaseBoundary
    (mkHook fourExercises
       {| phase := REST; timeRemaining := 0; currentSet := 1;
          totalSets := 1; currentExerciseIndex := 0; totalExercises := 2;
          workTime := 15; restTime := 10; isRunning := true |})
  = Ok (mkHook fourExercises
          {| phase := PREP; timeRemaining := PREP_TIME; currentSet := 1;
             totalSets := 3; currentExerciseIndex := 1; totalExercises := 4;
             workTime := 20; restTime := 7; isRunning := true |},
        [OnExerciseComplete 0]) /\
  nthZ fourExercises 2
  = Some {| name := "Rows"; detail := "Pull"; sets := 1; work := 15;
            rest := 10 |} /\
  nthZ fourExercises 3
  = Some {| name := "Lunges"; detail := "Alternate"; sets := 2; work := 30;
            rest := 8 |}.
Proof. vm_compute. repeat split; reflexivity. Qed.

(** C6. [tick] is a no-op on a paused timer; on a running one it
    decrements [timeRemaining] by one, floored at zero, and touches no
    other field; so repeated ticks of a running timer strictly decrease
    [timeRemaining] until it is zero, and it is never negative. *)
Theorem tick_countdown (s : TimerState) :
  (isRunning s = false -> timerReducer s Action.TICK = s) /\
  (isRunning s = true ->
   timeRemaining (timerReducer s Action.TICK) = Z.max 0 (timeRemaining s - 1) /\
   onlyTimeChanged s (timerReducer s Action.TICK)) /\
  (isRunning s = true ->
   forall n : nat,
     isRunning (ticks n s) = true /\
     0 <= timeRemaining (ticks (S n) s) /\
     (0 < timeRemaining (ticks n s) ->
      timeRemaining (ticks (S n) s) = timeRemaining (ticks n s) - 1) /\
     (timeRemaining s <= Z.of_nat (S n) -> timeRemaining (ticks (S n) s) = 0)).
Proof.
  split; [|split].
  - intro Hrun. simpl. rewrite Hrun. reflexivity.
  - intro Hrun. simpl. rewrite Hrun. simpl. unfold onlyTimeChanged. simpl.
    repeat split; reflexivity.
  - intros Hrun n.
    pose proof (ticks_running n s Hrun) as Hn.
    pose proof (tick_running_time (ticks n s) Hn) as Hstep.
    rewrite <- ticks_succ in Hstep.
    split; [exact Hn|]. split; [lia|]. split; [lia|].
    intro Hsmall. clear Hstep Hn.
    assert (Hfirst : 0 <= timeRemaining (timerReducer s Action.TICK))
      by (rewrite tick_running_time by exact Hrun; lia).
    change (ticks (S n) s) with (ticks n (timerReducer s Action.TICK)).
    rewrite ticks_time; [| simpl; rewrite Hrun; exact Hrun | exact Hfirst].
    rewrite tick_running_time by exact Hrun. lia.
Qed.

Lemma tick_countdown_witness :
  timeRemaining (ticks 2 (with_timeRemaining 2 lastSetState)) = 0.
Proof.
  apply (proj2 (proj2 (tick_countdown (with_timeRemaining 2 lastSetState)))
           eq_refl 1%nat).
  simpl. lia.
Defined.

(** C7. [init] on an empty plan gives the idle initial state; on a
    non-empty plan it loads the first exercise, with
    [timeRemaining = PREP_TIME = 5], phase IDLE and the timer stopped. *)
Theorem init_loads_first_exercise (h : Hook) (first : Exercise)
  (others : list Exercise) :
  state (init [] h) = initialState /\
  phase initialState = IDLE /\ isRunning initialState = false /\
  let s := state (init (first :: others) h) in
  currentExerciseIndex s = 0 /\ currentSet s = 1 /\
  totalSets s = sets first /\ workTime s = work first /\
  restTime s = rest first /\ timeRemaining s = PREP_TIME /\ PREP_TIME = 5 /\
  totalExercises s = lengthZ (first :: others) /\
  phase s = IDLE /\ isRunning s = false.
Proof. simpl. repeat split; reflexivity. Qed.

(** C8. [pause] and [resume] change the [isRunning] flag only; pausing and
    resuming at once leaves [timeRemaining] and [phase] as they were. *)
Theorem pause_resume_frame (s : TimerState) :
  onlyRunningChanged s (timerReducer s Action.PAUSE) /\
  isRunning (timerReducer s Action.PAUSE) = false /\
  onlyRunningChanged s (timerReducer s Action.RESUME) /\
  isRunning (timerReducer s Action.RESUME) = true /\
  timeRemaining (timerReducer (timerReducer s Action.PAUSE) Action.RESUME)
  = timeRemaining s /\
  phase (timerReducer (timerReducer s Action.PAUSE) Action.RESUME) = phase s.
Proof. unfold onlyRunningChanged. simpl. repeat split; reflexivity. Qed.

Lemma wellFormed_INIT (exercises plan : list Exercise) (s : TimerState) :
  Forall exercise_ok plan -> Forall exercise_ok exercises ->
  lengthZ plan <= lengthZ exercises ->
  wellFormed (mkHook exercises (timerReducer s (Action.INIT plan))).
Proof.
  intros Hplan Hexs Hlen. unfold wellFormed, consistent.
  destruct plan as [|e plan]; simpl.
  - unfold lengthZ in *. repeat split; try lia. exact Hexs.
  - inversion Hplan as [|? ? [Hw Hr] _]; subst.
    unfold PREP_TIME. repeat split; try lia; assumption.
Qed.

Lemma skipn_lengthZ {X : Type} (n : nat) (xs : list X) :
  lengthZ (skipn n xs) <= lengthZ xs.
Proof. unfold lengthZ. rewrite length_skipn. lia. Qed.

Lemma Forall_skipn {X : Type} (P : X -> Prop) (n : nat) (xs : list X) :
  Forall P xs -> Forall P (skipn n xs).
Proof.
  revert xs. induction n as [|n IH]; intros xs H; [exact H|].
  destruct xs as [|x xs]; [exact H|]. simpl. apply IH.
  inversion H; assumption.
Qed.

Lemma phaseTransition_wellFormed (h : Hook) (s' : TimerState)
  (events : list Event) :
  wellFormed h ->
  phaseTransition (exercisesRef h) (state h) = Ok (s', events) ->
  wellFormed (mkHook (exercisesRef h) s').
Proof.
  destruct h as [exs s]. unfold wellFormed, consistent. simpl.
  intros (Htr & Hwt & Hrt & [Hci Hte] & Hexs) Hstep.
  unfold phaseTransition in Hstep.
  destruct ((timeRemaining s =? 0) && isRunning s);
    [| injection Hstep as <- _; repeat split; assumption].
  destruct (phase s) eqn:Hphase.
  - injection Hstep as <- _; repeat split; assumption.
  - injection Hstep as <- _. simpl. rewrite Hphase. simpl.
    repeat split; assumption.
  - destruct (currentSet s <? totalSets s);
      [|destruct (currentExerciseIndex s <? totalExercises s - 1)];
      injection Hstep as <- _; simpl; try rewrite Hphase; simpl;
      try (destruct (currentSet s <? totalSets s)); simpl;
      repeat split; assumption.
  - destruct (currentSet s <? totalSets s).
    + injection Hstep as <- _. simpl. repeat split; assumption.
    + destruct (Z.ltb_spec (currentExerciseIndex s) (totalExercises s - 1))
        as [Hlt|Hge].
      * destruct (nthZ_in_range exs (currentExerciseIndex s + 1))
          as [next [Hnext Hin]]; [lia|].
        rewrite Hnext in Hstep. injection Hstep as <- _. simpl.
        pose proof (proj1 (Forall_forall _ _) Hexs next Hin) as [Hw Hr].
        unfold PREP_TIME. repeat split; try lia; assumption.
      * injection Hstep as <- _. simpl. repeat split; assumption.
  - injection Hstep as <- _; repeat split; assumption.
Qed.

Lemma phaseTransition_total (h : Hook) :
  wellFormed h ->
  exists r, phaseTransition (exercisesRef h) (state h) = Ok r.
Proof.
  destruct h as [exs s]. unfold wellFormed, consistent. simpl.
  intros (_ & _ & _ & [Hci Hte] & _). unfold phaseTransition.
  destruct ((timeRemaining s =? 0) && isRunning s); [|eexists; reflexivity].
  destruct (phase s); try (eexists; reflexivity).
  - destruct (currentSet s <? totalSets s); [eexists; reflexivity|].
    destruct (currentExerciseIndex s <? totalExercises s - 1);
      eexists; reflexivity.
  - destruct (currentSet s <? totalSets s); [eexists; reflexivity|].
    destruct (Z.ltb_spec (currentExerciseIndex s) (totalExercises s - 1))
      as [Hlt|Hge]; [|eexists; reflexivity].
    destruct (nthZ_in_range exs (currentExerciseIndex s + 1))
      as [next [Hnext _]]; [lia|].
    rewrite Hnext. eexists; reflexivity.
Qed.

Lemma step_wellFormed (h h' : Hook) (o : Op) :
  wellFormed h -> op_ok o -> step h o = Ok h' -> wellFormed h'.
Proof.
  intros Hwf Hok Hstep.
  pose proof Hwf as (Htr & Hwt & Hrt & [Hci Hte] & Hexs).
  destruct o; simpl in Hstep;
    unfold init, start, pause, resume, tick, toggle, reset, dispatch in Hstep.
  - injection Hstep as <-. apply (wellFormed_INIT _ _ (state h)); try assumption. lia.
  - injection Hstep as <-. unfold wellFormed, consistent, PREP_TIME; simpl.
    repeat split; try assumption; unfold PREP_TIME; lia.
  - injection Hstep as <-. unfold wellFormed, consistent; simpl.
    repeat split; assumption.
  - injection Hstep as <-. unfold wellFormed, consistent; simpl.
    repeat split; assumption.
  - injection Hstep as <-. unfold wellFormed, consistent; simpl.
    destruct (isRunning (state h)); simpl; repeat split; try assumption; unfold PREP_TIME; lia.
  - injection Hstep as <-.
    unfold wellFormed, consistent, PREP_TIME.
    destruct (phase (state h)); simpl;
      try (destruct (isRunning (state h))); simpl;
      repeat split; try assumption; unfold PREP_TIME; lia.
  - injection Hstep as <-. simpl.
    apply (wellFormed_INIT _ _ (state h)); try assumption. lia.
  - injection Hstep as <-. unfold setExercise, dispatch.
    destruct ((index >=? 0) && (index <? lengthZ (exercisesRef h)));
      [|exact Hwf].
    apply (wellFormed_INIT _ _ (state h)); try assumption.
    + apply Forall_skipn. exact Hexs.
    + apply skipn_lengthZ.
  - unfold phaseBoundary in Hstep.
    destruct (phaseTransition (exercisesRef h) (state h)) as [[s' ev]|e]
      eqn:Hpt; simpl in Hstep; [|discriminate].
    injection Hstep as <-. eapply phaseTransition_wellFormed; eassumption.
Qed.

Lemma step_total (h : Hook) (o : Op) :
  wellFormed h -> exists h', step h o = Ok h'.
Proof.
  intro Hwf. destruct o; simpl; try (eexists; reflexivity).
  destruct (phaseTransition_total h Hwf) as [r Hr].
  unfold phaseBoundary. rewrite Hr. simpl. eexists; reflexivity.
Qed.

Ltac split_step H :=
  repeat (simpl in H;
          match type of H with
          | context [match ?x with _ => _ end] => destruct x eqn:?
          end);
  simpl in H; try discriminate H.

Lemma step_stopped (h h' : Hook) (o : Op) :
  stoppedOutsideSession (state h) -> disciplined (state h) o ->
  step h o = Ok h' -> stoppedOutsideSession (state h').
Proof.
  unfold stoppedOutsideSession.
  destruct h as [exs [ph tr cs ts ci te wt rt run]]. simpl.
  intros Hstop Hdisc Hstep.
  destruct o; simpl in Hdisc;
    unfold step, init, start, pause, resume, tick, toggle, reset,
      setExercise, dispatch, phaseBoundary, phaseTransition in Hstep;
    destruct ph, run; split_step Hstep;
    injection Hstep as <-; simpl; intuition congruence.
Qed.

Lemma mount_wellFormed (exercises : list Exercise) :
  Forall exercise_ok exercises -> wellFormed (mount exercises).
Proof.
  intro H. unfold wellFormed, consistent, mount, lengthZ. simpl.
  repeat split; try lia. exact H.
Qed.

Lemma reachable_wellFormed (guard : TimerState -> Op -> Prop)
  (exercises : list Exercise) (h : Hook) :
  Forall exercise_ok exercises ->
  Reachable guard (mount exercises) h -> wellFormed h.
Proof.
  intros Hexs Hreach. induction Hreach as [|h h' o _ IH Hok _ Hstep].
  - apply mount_wellFormed. exact Hexs.
  - eapply step_wellFormed; eassumption.
Qed.

(** C3, amended.  For plans with non-negative work and rest times,
    [timeRemaining >= 0] holds in every reachable state, and no operation
    throws there; [isRunning] is false in IDLE and COMPLETE along every
    run in which [resume] is called only in PREP, WORK or REST and
    [toggle] is not called in COMPLETE. *)
Theorem timer_invariant (exercises : list Exercise) (h : Hook) :
  Forall exercise_ok exercises ->
  (Reachable any_call (mount exercises) h ->
   0 <= timeRemaining (state h) /\ forall o, exists h', step h o = Ok h') /\
  (Reachable disciplined (mount exercises) h ->
   stoppedOutsideSession (state h)).
Proof.
  intro Hexs. split.
  - intro Hreach.
    pose proof (reachable_wellFormed _ _ _ Hexs Hreach) as Hwf.
    split; [exact (proj1 Hwf)|]. intro o. apply step_total. exact Hwf.
  - intro Hreach. induction Hreach as [|h h' o _ IH _ Hdisc Hstep].
    + intro. reflexivity.
    + eapply step_stopped; eassumption.
Qed.

Lemma timer_invariant_witness :
  (0 <= timeRemaining (state (start (mount oneExercise))) /\
   forall o, exists h', step (start (mount oneExercise)) o = Ok h') /\
  stoppedOutsideSession (state (start (mount oneExercise))).
Proof.
  assert (Hplan : Forall exercise_ok oneExercise)
    by (repeat constructor; simpl; lia).
  destruct (timer_invariant oneExercise (start (mount oneExercise)) Hplan)
    as [Hany Hdisc].
  split.
  - apply Hany. apply Reach_step with (h := mount oneExercise) (o := OpStart).
    + apply Reach_mount.
    + exact I.
    + exact I.
    + reflexivity.
  - apply Hdisc. apply Reach_step with (h := mount oneExercise) (o := OpStart).
    + apply Reach_mount.
    + exact I.
    + exact I.
    + reflexivity.
Defined.

(** C3, as stated, fails: [resume] on the freshly mounted timer leaves
    the phase IDLE and sets [isRunning]. *)
Lemma resume_when_idle_runs :
  Reachable any_call (mount oneExercise) (resume (mount oneExercise)) /\
  phase (state (resume (mount oneExercise))) = IDLE /\
  isRunning (state (resume (mount oneExercise))) = true /\
  ~ stoppedOutsideSession (state (resume (mount oneExercise))).
Proof.
  split; [|split; [reflexivity|split; [reflexivity|]]].
  - apply Reach_step with (h := mount oneExercise) (o := OpResume).
    + apply Reach_mount.
    + exact I.
    + exact I.
    + reflexivity.
  - unfold stoppedOutsideSession. simpl. intro H.
    specialize (H (or_introl eq_refl)). discriminate H.
Qed.

(** The same state is reached through [toggle] once a session is
    complete: the whole of scenario A, then one more [toggle]. *)
Example toggle_after_complete_runs :
  run ([OpInit oneExercise; OpToggle]
         ++ repeat OpTick 5 ++ [OpPhaseBoundary]
         ++ repeat OpTick 10 ++ [OpPhaseBoundary; OpToggle])
      (mount oneExercise)
  = Ok (mkHook oneExercise
          {| phase := COMPLETE; timeRemaining := 0; currentSet := 1;
             totalSets := 1; currentExerciseIndex := 0; totalExercises := 1;
             workTime := 10; restTime := 5; isRunning := true |}).
Proof. vm_compute. reflexivity. Qed.

(** Without the data model's bound on durations the countdown can start
    below zero. *)
Example negative_work_time :
  run ([OpInit negativeWork; OpStart] ++ repeat OpTick 5 ++ [OpPhaseBoundary])
      (mount negativeWork)
  = Ok (mkHook negativeWork
          {| phase := WORK; timeRemaining := -3; currentSet := 1;
             totalSets := 1; currentExerciseIndex := 0; totalExercises := 1;
             workTime := -3; restTime := 5; isRunning := true |}).
Proof. vm_compute. reflexivity. Qed.

(** Phase order for one exercise of two sets (P2). *)
Example two_sets_phase_order :
  let plan := [{| name := "Rows"; detail := "Pull"; sets := 2; work := 2; rest := 1 |}] in
  let after ops := match run ops (mount plan) with
                   | Ok h => Some (phase (state h))
                   | Throw _ => None
                   end in
  let p1 := [OpInit plan; OpStart] in
  let p2 := (p1 ++ repeat OpTick 5 ++ [OpPhaseBoundary])%list in
  let p3 := (p2 ++ repeat OpTick 2 ++ [OpPhaseBoundary])%list in
  let p4 := (p3 ++ repeat OpTick 1 ++ [OpPhaseBoundary])%list in
  let p5 := (p4 ++ repeat OpTick 2 ++ [OpPhaseBoundary])%list in
  map after [p1; p2; p3; p4; p5]
  = [Some PREP; Some WORK; Some REST; Some WORK; Some COMPLETE].
Proof. vm_compute. reflexivity. Qed.

End TimerFacts.

(** * Properties of the persisted-state container *)

Section PersistedFacts.
Import Persisted.
Context {T W : Type}.
Variable defaultValue : T.

(** On the initial load a throwing callback is caught and logged, and the
    default still becomes the live value. *)
Lemma load_catches_callback_exception (f : Callback T W) (s : Sys T W)
  (d : PersistedData T) (e : string) (w' : W) :
  storage s = Some (Json d) -> date d <> clock s ->
  f (value d) (date d) (world s) = (w', Throw e) ->
  load defaultValue true (Some f) s
  = mkSys (clock s) (storage s) defaultValue
          (console s ++ ["onReset failed"]) w'.
Proof.
  intros Hstored Hstale Hthrow.
  unfold load, initializer, try_catch, bindM, getItem, JSON_parse, ret,
    getTodayDateString, call, console_error.
  rewrite Hstored. simpl.
  rewrite (proj2 (String.eqb_neq _ _) Hstale). simpl.
  rewrite Hthrow. simpl. rewrite <- Hstored. reflexivity.
Qed.

(** In [checkMidnight] the same exception reaches the outer handler:
    nothing is logged and [setState(defaultValue)] is skipped. *)
Lemma checkMidnight_skips_reset_on_exception (f : Callback T W) (s : Sys T W)
  (d : PersistedData T) (e : string) (w' : W) :
  storage s = Some (Json d) -> date d <> clock s ->
  f (value d) (date d) (world s) = (w', Throw e) ->
  checkMidnight defaultValue (Some f) s
  = (mkSys (clock s) (storage s) (live s) (console s) w', Ok tt).
Proof.
  intros Hstored Hstale Hthrow.
  unfold checkMidnight, try_catch, bindM, getItem, JSON_parse, ret,
    getTodayDateString, call, setState.
  rewrite Hstored. simpl.
  rewrite (proj2 (String.eqb_neq _ _) Hstale). simpl.
  rewrite Hthrow. simpl. rewrite <- Hstored. reflexivity.
Qed.

(** When the callback returns, both paths reset to the default. *)
Lemma checkMidnight_resets_when_callback_returns (f : Callback T W) (s : Sys T W)
  (d : PersistedData T) (w' : W) :
  storage s = Some (Json d) -> date d <> clock s ->
  f (value d) (date d) (world s) = (w', Ok tt) ->
  checkMidnight defaultValue (Some f) s
  = (mkSys (clock s) (storage s) defaultValue (console s) w', Ok tt).
Proof.
  intros Hstored Hstale Hret.
  unfold checkMidnight, try_catch, bindM, getItem, JSON_parse, ret,
    getTodayDateString, call, setState.
  rewrite Hstored. simpl.
  rewrite (proj2 (String.eqb_neq _ _) Hstale). simpl.
  rewrite Hret. simpl. rewrite <- Hstored. reflexivity.
Qed.

End PersistedFacts.

(** Scenario C: a value persisted on 2024-01-01 and loaded on 2024-01-02
    reaches the callback with its date, the live value is the default,
    and the next persist stamps it with the new date. *)
Example reopen_next_day :
  let loaded := Persisted.load 0 true (Some Persisted.recordingCallback)
                  Persisted.reopenedSys in
  Persisted.world loaded = [(7, "2024-01-01")] /\
  Persisted.live loaded = 0 /\
  Persisted.console loaded = [] /\
  Persisted.storage (fst (Persisted.persist loaded))
  = Some (Persisted.Json (Persisted.mkPersistedData "2024-01-02" 0)).
Proof. vm_compute. repeat split; reflexivity. Qed.

(** C4.  With a stale envelope and a throwing callback, the initial load
    logs the failure and resets to the default, while the staleness
    re-check logs nothing and leaves the stale value live. *)
Theorem checkMidnight_loses_reset :
  Persisted.load 0 true (Some Persisted.failingCallback) Persisted.staleSys
  = Persisted.mkSys "2024-01-02"
      (Some (Persisted.Json (Persisted.mkPersistedData "2024-01-01" 7)))
      0 ["onReset failed"] tt /\
  Persisted.stalenessCheck 0 true (Some Persisted.failingCallback)
    Persisted.staleSys
  = Persisted.staleSys /\
  Persisted.live
    (Persisted.stalenessCheck 0 true (Some Persisted.failingCallback)
       Persisted.staleSys) = 7 /\
  Persisted.console
    (Persisted.stalenessCheck 0 true (Some Persisted.failingCallback)
       Persisted.staleSys) = [].
Proof. vm_compute. repeat split; reflexivity. Qed.

(** * Properties of the rollover archiver *)

Section ArchiveFacts.
Import App.

Lemma leb_trans (a b c : string) :
  String.leb a b = true -> String.leb b c = true -> String.leb a c = true.
Proof.
  unfold String.leb. intros Hab Hbc.
  assert (Hrefl : forall x, String.compare x x = Eq)
    by (intro x; apply (proj2 (String_as_OT.cmp_eq x x)); reflexivity).
  destruct (String.compare a b) eqn:Eab; try discriminate;
    destruct (String.compare b c) eqn:Ebc; try discriminate;
    try (apply String_as_OT.cmp_eq in Eab; subst);
    try (apply String_as_OT.cmp_eq in Ebc; subst);
    rewrite ?Hrefl, ?Eab, ?Ebc; try reflexivity.
  apply String_as_OT.cmp_lt in Eab, Ebc.
  pose proof (String_as_OT.lt_trans _ _ _ Eab Ebc) as Hac.
  apply String_as_OT.cmp_lt in Hac. unfold String_as_OT.cmp in Hac.
  rewrite Hac. reflexivity.
Qed.

Lemma newerFirst_trans (a b c : HistoryRecord) :
  newerFirst a b -> newerFirst b c -> newerFirst a c.
Proof. unfold newerFirst. intros Hab Hbc. eapply leb_trans; eassumption. Qed.

Lemma insert_In (x y : HistoryRecord) (l : list HistoryRecord) :
  In y (insert byDateDesc x l) -> y = x \/ In y l.
Proof.
  induction l as [|z l IH]; simpl.
  - intros [H|[]]. left. symmetry. exact H.
  - destruct (byDateDesc x z); simpl.
    + intros [H|H]; [left; symmetry; exact H | right; exact H].
    + intros [H|H]; [left; symmetry; exact H | right; exact H].
    + intros [H|H]; [right; left; exact H |].
      destruct (IH H) as [Hx|Hl]; [left; exact Hx | right; right; exact Hl].
Qed.

Lemma insert_sorted (x : HistoryRecord) (l : list HistoryRecord) :
  StronglySorted newerFirst l ->
  StronglySorted newerFirst (insert byDateDesc x l).
Proof.
  induction l as [|y l IH]; intro Hsorted; simpl.
  - repeat constructor.
  - inversion Hsorted as [|? ? Htail Hhead]; subst.
    assert (Hle : byDateDesc x y <> Gt -> newerFirst x y).
    { unfold byDateDesc, localeCompare, newerFirst, String.leb.
      destruct (String.compare (date y) (date x)); congruence. }
    destruct (byDateDesc x y) eqn:Hcmp.
    + constructor; [exact Hsorted|]. constructor; [apply Hle; congruence|].
      eapply Forall_impl; [|exact Hhead]. intros z Hz.
      eapply newerFirst_trans; [apply Hle; congruence|exact Hz].
    + constructor; [exact Hsorted|]. constructor; [apply Hle; congruence|].
      eapply Forall_impl; [|exact Hhead]. intros z Hz.
      eapply newerFirst_trans; [apply Hle; congruence|exact Hz].
    + constructor; [apply IH; exact Htail|].
      apply Forall_forall. intros z Hz. apply insert_In in Hz.
      destruct Hz as [->|Hz].
      * unfold byDateDesc, localeCompare in Hcmp.
        unfold newerFirst, String.leb.
        rewrite String.compare_antisym, Hcmp. reflexivity.
      * exact (proj1 (Forall_forall _ _) Hhead z Hz).
Qed.

Lemma sort_sorted (l : list HistoryRecord) :
  StronglySorted newerFirst (sort byDateDesc l).
Proof.
  induction l as [|x l IH]; simpl; [constructor|].
  apply insert_sorted. exact IH.
Qed.

Lemma countDate_insert (d : string) (x : HistoryRecord)
  (l : list HistoryRecord) :
  countDate d (insert byDateDesc x l) = countDate d (x :: l).
Proof.
  unfold countDate. induction l as [|y l IH]; simpl; [reflexivity|].
  destruct (byDateDesc x y); simpl; try reflexivity.
  simpl in IH.
  destruct (date y =? d)%string; destruct (date x =? d)%string;
    simpl in *; rewrite IH; reflexivity.
Qed.

Lemma countDate_sort (d : string) (l : list HistoryRecord) :
  countDate d (sort byDateDesc l) = countDate d l.
Proof.
  induction l as [|x l IH]; simpl; [reflexivity|].
  rewrite countDate_insert. unfold countDate in *. simpl.
  destruct (date x =? d)%string; simpl; rewrite IH; reflexivity.
Qed.

Lemma countDate_app (d : string) (l l' : list HistoryRecord) :
  countDate d (l ++ l') = (countDate d l + countDate d l')%nat.
Proof. unfold countDate. rewrite filter_app, length_app. reflexivity. Qed.

Lemma existsb_countDate (d : string) (l : list HistoryRecord) :
  existsb (fun h => (date h =? d)%string) l = negb (Nat.eqb (countDate d l) 0).
Proof.
  unfold countDate. induction l as [|x l IH]; simpl; [reflexivity|].
  destruct (date x =? d)%string; simpl; [reflexivity|exact IH].
Qed.

Lemma archive_absent (d : string) (r : HistoryRecord)
  (prev : list HistoryRecord) :
  countDate d prev = 0%nat ->
  archive d r prev = sort byDateDesc (prev ++ [r]).
Proof.
  intro H. unfold archive. rewrite existsb_countDate, H. reflexivity.
Qed.

Lemma archive_present (d : string) (r : HistoryRecord)
  (prev : list HistoryRecord) :
  countDate d prev <> 0%nat -> archive d r prev = prev.
Proof.
  intro H. unfold archive. rewrite existsb_countDate.
  destruct (Nat.eqb_spec (countDate d prev) 0); [contradiction|reflexivity].
Qed.

Lemma countDate_archive (d : string) (st : WorkoutStats) (dl : DailyState)
  (prev : list HistoryRecord) :
  countDate d (archive d (makeRecord st dl d) prev)
  = Nat.max 1 (countDate d prev).
Proof.
  destruct (Nat.eq_dec (countDate d prev) 0) as [Hzero|Hpos].
  - rewrite archive_absent by exact Hzero.
    rewrite countDate_sort, countDate_app, Hzero.
    unfold countDate. simpl. rewrite String.eqb_refl. reflexivity.
  - rewrite archive_present by exact Hpos. lia.
Qed.

Lemma countDate_archive_other (d d' : string) (r : HistoryRecord)
  (prev : list HistoryRecord) :
  date r = d -> d <> d' ->
  countDate d' (archive d r prev) = countDate d' prev.
Proof.
  intros Hr Hneq. unfold archive.
  destruct (existsb _ prev); [reflexivity|].
  rewrite countDate_sort, countDate_app. unfold countDate at 2. simpl.
  rewrite Hr, (proj2 (String.eqb_neq _ _) Hneq). simpl. lia.
Qed.

(** Every history the archiver builds from the empty default holds at
    most one record per date and is sorted newest first. *)
Lemma archived_invariant (h : list HistoryRecord) :
  Archived h ->
  (forall d, (countDate d h <= 1)%nat) /\ StronglySorted newerFirst h.
Proof.
  induction 1 as [|st dl d prev _ [IHcount IHsorted]].
  - split; [intro d; unfold countDate; simpl; lia | constructor].
  - split.
    + intro d'. destruct (string_dec d d') as [<-|Hneq].
      * rewrite countDate_archive. specialize (IHcount d). lia.
      * rewrite countDate_archive_other by (try reflexivity; exact Hneq).
        apply IHcount.
    + unfold archive. destruct (existsb _ prev); [exact IHsorted|].
      apply sort_sorted.
Qed.

(** C5. Archiving the same stale date twice changes nothing the second
    time and leaves exactly one record for that date; a history into
    which a record was inserted is sorted by date, newest first. *)
Theorem rollover_idempotent (daily1 daily2 : DailyState) (staleDate : string)
  (s : AppState) :
  let once := saveDailyProgress daily1 staleDate s in
  let twice := saveDailyProgress daily2 staleDate once in
  twice = once /\
  ((countDate staleDate (history s) <= 1)%nat ->
   countDate staleDate (history twice) = 1%nat) /\
  (countDate staleDate (history s) = 0%nat ->
   In (makeRecord (stats s) daily1 staleDate) (history once) /\
   StronglySorted newerFirst (history once)).
Proof.
  simpl. unfold saveDailyProgress, setHistory. simpl.
  set (r1 := makeRecord (stats s) daily1 staleDate).
  set (r2 := makeRecord (stats s) daily2 staleDate).
  assert (Hcount : countDate staleDate (archive staleDate r1 (history s))
                   = Nat.max 1 (countDate staleDate (history s)))
    by apply countDate_archive.
  assert (Hsame : archive staleDate r2 (archive staleDate r1 (history s))
                  = archive staleDate r1 (history s))
    by (apply archive_present; lia).
  rewrite Hsame. split; [reflexivity|]. split.
  - intro Hle. lia.
  - intro Hzero. rewrite archive_absent by exact Hzero. split.
    + assert (Hperm : forall l x, In x l -> In x (sort byDateDesc l)).
      { clear. induction l as [|y l IH]; simpl; [tauto|].
        intros x [->|Hin].
        - clear IH. induction (sort byDateDesc l) as [|z l' IH']; simpl;
            [left; reflexivity|].
          destruct (byDateDesc x z); simpl; auto.
        - specialize (IH x Hin). revert IH.
          induction (sort byDateDesc l) as [|z l' IH']; simpl; [tauto|].
          destruct (byDateDesc y z); simpl; intuition. }
      apply Hperm. apply in_or_app. right. left. reflexivity.
    + apply sort_sorted.
Qed.

Lemma rollover_idempotent_witness :
  countDate "2024-01-01"
    (history (saveDailyProgress sampleDaily "2024-01-01"
                (saveDailyProgress sampleDaily "2024-01-01" sampleState)))
  = 1%nat.
Proof.
  apply (proj1 (proj2 (rollover_idempotent sampleDaily sampleDaily
                         "2024-01-01" sampleState))).
  vm_compute. lia.
Defined.

End ArchiveFacts.

(** * Properties of the prayer clean-up effect and of resetStats *)

Section PrayerFacts.
Import App.
Variable now : string.

Lemma has_keys (k : string) (m : JsMap) :
  has k m = existsb (fun k' => (k' =? k)%string) (map fst m).
Proof.
  unfold has. induction m as [|[k' v] m IH]; simpl; [reflexivity|].
  rewrite IH. reflexivity.
Qed.

Lemma set_fresh (k : string) (v : PrayerStatus) (m : JsMap) :
  has k m = false -> set k v m = (m ++ [(k, v)])%list.
Proof.
  unfold has. induction m as [|[k' v'] m IH]; simpl; [reflexivity|].
  intro H. apply orb_false_iff in H as [Hk Hm].
  rewrite Hk, IH by exact Hm. reflexivity.
Qed.

Lemma entry_id_toStatus (p : PrayerEntry) : id (toStatus now p) = entry_id p.
Proof. destruct p; reflexivity. Qed.

(** The map built by the loop holds the first occurrence of every id,
    in order of first appearance. *)
Lemma fold_visit_map (ps : list PrayerEntry) (m : JsMap) (hc : bool) :
  fst (fold_left (visit now) ps (m, hc))
  = (m ++ map keyed
            (dedupFirst (map fst m) (map (toStatus now) (filter kept ps))))%list.
Proof.
  revert m hc. induction ps as [|p ps IH]; intros m hc; simpl.
  - rewrite app_nil_r. reflexivity.
  - assert (Hfresh : forall st, has (id st) m = false ->
              fst (fold_left (visit now) ps (set (id st) st m, hc))
              = (m ++ keyed st ::
                   map keyed (dedupFirst (map fst m ++ [id st])
                                (map (toStatus now) (filter kept ps))))%list).
    { intros st Hst. rewrite set_fresh by exact Hst.
      rewrite IH, map_app, <- app_assoc. reflexivity. }
    destruct p as [s|st]; simpl.
    + rewrite <- has_keys.
      destruct (has s m) eqn:Hhas; simpl.
      * apply IH.
      * pose proof (Hfresh (mkPrayerStatus s alone now) Hhas) as H.
        simpl in H. rewrite <- H.
        rewrite !set_fresh by exact Hhas. rewrite !IH. reflexivity.
    + destruct (truthy (id st)); simpl; [|apply IH].
      rewrite <- has_keys.
      destruct (has (id st) m) eqn:Hhas; simpl; [apply IH|].
      apply Hfresh. exact Hhas.
Qed.

Lemma fold_visit_changes (ps : list PrayerEntry) (m : JsMap) (hc : bool) :
  (List.length (fst (fold_left (visit now) ps (m, hc)))
   <= List.length m + List.length ps)%nat /\
  (snd (fold_left (visit now) ps (m, hc)) = true ->
   hc = true \/ existsb isString ps = true \/
   (List.length (fst (fold_left (visit now) ps (m, hc)))
    < List.length m + List.length ps)%nat).
Proof.
  revert m hc. induction ps as [|p ps IH]; intros m hc; simpl.
  - split; [lia|]. intro H. left. exact H.
  - assert (Hset : forall k v, has k m = false ->
                     List.length (set k v m) = S (List.length m)).
    { intros k v Hk. rewrite set_fresh by exact Hk.
      rewrite length_app. simpl. lia. }
    destruct p as [s|st]; simpl.
    + destruct (has s m) eqn:Hhas; simpl.
      * destruct (IH m hc) as [Hlen _]. split; [lia|]. auto.
      * destruct (IH (set s (mkPrayerStatus s alone now) m) true) as [Hlen _].
        rewrite Hset in Hlen by exact Hhas. split; [lia|]. auto.
    + destruct (truthy (id st)); simpl.
      * destruct (has (id st) m) eqn:Hhas; simpl.
        -- destruct (IH m true) as [Hlen _]. split; [lia|].
           intros _. right. right. lia.
        -- destruct (IH (set (id st) st m) hc) as [Hlen Hhc].
           rewrite Hset in Hlen, Hhc by exact Hhas. split; [lia|].
           intro H. destruct (Hhc H) as [?|[?|?]]; auto.
           right. right. lia.
      * destruct (IH m hc) as [Hlen _]. split; [lia|].
        intros _. right. right. lia.
Qed.

Lemma dedupFirst_length (ps : list PrayerEntry) (seen : list string) :
  (List.length (dedupFirst seen (map (toStatus now) (filter kept ps)))
   <= List.length ps)%nat.
Proof.
  revert seen. induction ps as [|p ps IH]; intro seen; simpl; [lia|].
  destruct (kept p); simpl.
  - destruct (existsb _ seen); simpl.
    + specialize (IH seen). lia.
    + specialize (IH (seen ++ [id (toStatus now p)])%list). lia.
  - specialize (IH seen). lia.
Qed.

(** If the loop dropped nothing, it kept everything. *)
Lemma dedupFirst_full (ps : list PrayerEntry) (seen : list string) :
  List.length (dedupFirst seen (map (toStatus now) (filter kept ps)))
  = List.length ps ->
  dedupFirst seen (map (toStatus now) (filter kept ps)) = map (toStatus now) ps
  /\ filter kept ps = ps.
Proof.
  revert seen. induction ps as [|p ps IH]; intro seen; simpl; [auto|].
  destruct (kept p); simpl.
  - destruct (existsb _ seen); simpl.
    + pose proof (dedupFirst_length ps seen). lia.
    + intro H. injection H as H. destruct (IH _ H) as [-> ->]. auto.
  - pose proof (dedupFirst_length ps seen). lia.
Qed.

Lemma no_strings_roundtrip (ps : list PrayerEntry) :
  existsb isString ps = false -> map Status (map (toStatus now) ps) = ps.
Proof.
  induction ps as [|[s|st] ps IH]; simpl; [reflexivity|discriminate|].
  intro H. rewrite IH by exact H. reflexivity.
Qed.

Lemma map_Status_no_strings (l : list PrayerStatus) :
  existsb isString (map Status l) = false.
Proof. induction l as [|p l IH]; simpl; [reflexivity|exact IH]. Qed.

Lemma values_keyed (l : list PrayerStatus) : values (map keyed l) = l.
Proof.
  unfold values. rewrite map_map. simpl. apply map_id.
Qed.

Lemma cleanup_Some (ps l : list PrayerEntry) :
  cleanup now ps = Some l ->
  l = spec_normalize now (filter kept ps) /\ l <> ps.
Proof.
  unfold cleanup, spec_normalize.
  destruct (lengthZ ps >? 0); [|discriminate].
  destruct (fold_left (visit now) ps (newMap, false)) as [m hc] eqn:Hfold.
  pose proof (fold_visit_map ps newMap false) as Hmap.
  pose proof (fold_visit_changes ps newMap false) as [Hlen Hhc].
  rewrite Hfold in Hmap, Hlen, Hhc. simpl in Hmap, Hlen, Hhc.
  intro H.
  destruct (hc || negb (lengthZ m =? lengthZ ps) || existsb isString ps)
    eqn:Hcond; [|discriminate].
  injection H as <-. rewrite Hmap, values_keyed. split; [reflexivity|].
  intro Heq.
  assert (Hstr : existsb isString ps = false)
    by (rewrite <- Heq; apply map_Status_no_strings).
  assert (Hsize : List.length m = List.length ps).
  { rewrite Hmap, length_map.
    apply (f_equal (@List.length PrayerEntry)) in Heq.
    rewrite length_map in Heq. exact Heq. }
  rewrite Hstr, orb_false_r in Hcond.
  unfold lengthZ in Hcond. rewrite Hsize, Z.eqb_refl, orb_false_r in Hcond.
  destruct (Hhc Hcond) as [?|[?|?]]; [discriminate|congruence|lia].
Qed.

Lemma cleanup_None (ps : list PrayerEntry) :
  cleanup now ps = None -> spec_normalize now (filter kept ps) = ps.
Proof.
  unfold cleanup, spec_normalize.
  destruct (Z.gtb_spec (lengthZ ps) 0) as [Hpos|Hempty].
  - destruct (fold_left (visit now) ps (newMap, false)) as [m hc] eqn:Hfold.
    pose proof (fold_visit_map ps newMap false) as Hmap.
    rewrite Hfold in Hmap. simpl in Hmap.
    destruct (hc || negb (lengthZ m =? lengthZ ps) || existsb isString ps)
      eqn:Hcond; [discriminate|]. intros _.
    apply orb_false_iff in Hcond as [Hcond Hstr].
    apply orb_false_iff in Hcond as [_ Hsize].
    apply negb_false_iff, Z.eqb_eq in Hsize. unfold lengthZ in Hsize.
    apply Nat2Z.inj in Hsize. rewrite Hmap, length_map in Hsize.
    destruct (dedupFirst_full ps [] Hsize) as [-> _].
    apply no_strings_roundtrip. exact Hstr.
  - intros _. destruct ps; [reflexivity|].
    unfold lengthZ in Hempty. simpl in Hempty. lia.
Qed.

Lemma countId_cons (k : string) (p : PrayerEntry) (l : list PrayerEntry) :
  countId k (p :: l)
  = ((if (entry_id p =? k)%string then 1 else 0) + countId k l)%nat.
Proof.
  unfold countId. simpl. destruct (entry_id p =? k)%string; reflexivity.
Qed.

Lemma countId_dedupFirst (k : string) (l : list PrayerStatus)
  (seen : list string) :
  countId k (map Status (dedupFirst seen l))
  = if existsb (fun k' => (k' =? k)%string) seen then 0%nat
    else if existsb (fun p => (id p =? k)%string) l then 1%nat else 0%nat.
Proof.
  revert seen. induction l as [|p l IH]; intro seen.
  - simpl. destruct (existsb _ seen); reflexivity.
  - cbn [dedupFirst existsb].
    destruct (existsb (fun k' => (k' =? id p)%string) seen) eqn:Hp.
    + rewrite IH.
      destruct (existsb (fun k' => (k' =? k)%string) seen) eqn:Hk;
        [reflexivity|].
      destruct (String.eqb_spec (id p) k) as [<-|Hneq]; [congruence|].
      reflexivity.
    + cbn [map]. rewrite countId_cons, IH, existsb_app.
      cbn [entry_id existsb]. rewrite orb_false_r.
      destruct (String.eqb_spec (id p) k) as [<-|Hneq].
      * rewrite Hp, orb_true_r. reflexivity.
      * rewrite orb_false_r. simpl.
        destruct (existsb (fun k' => (k' =? k)%string) seen); reflexivity.
Qed.

Lemma existsb_kept (k : string) (ps : list PrayerEntry) :
  existsb (fun p => (id p =? k)%string) (map (toStatus now) (filter kept ps))
  = existsb (fun p => kept p && (entry_id p =? k)%string) ps.
Proof.
  induction ps as [|p ps IH]; simpl; [reflexivity|].
  destruct (kept p); simpl; [|exact IH].
  rewrite entry_id_toStatus, IH. reflexivity.
Qed.

Lemma normalized_spec (ps : list PrayerEntry) :
  normalized now ps = spec_normalize now (filter kept ps).
Proof.
  unfold normalized. destruct (cleanup now ps) as [l|] eqn:Hc.
  - exact (proj1 (cleanup_Some ps l Hc)).
  - symmetry. apply cleanup_None. exact Hc.
Qed.

(** C9, amended.  The effect leaves in [daily.prayers] the list obtained
    by dropping object entries with an empty id, turning every bare
    string [s] into [{id: s, type: 'alone', completedAt: now}] and
    keeping the first entry of every id; it writes that list back exactly
    when it differs from the stored one; an id carried by a string or by
    an object with a non-empty id ends up on exactly one entry. *)
Theorem prayer_normalization (ps : list PrayerEntry) :
  normalized now ps = spec_normalize now (filter kept ps) /\
  (spec_normalize now (filter kept ps) <> ps <->
   cleanup now ps = Some (spec_normalize now (filter kept ps))) /\
  (forall s : AppState,
     prayers (daily (cleanupEffect now s))
     = spec_normalize now (filter kept (prayers (daily s)))) /\
  (forall k : string,
     countId k (normalized now ps)
     = if existsb (fun p => kept p && (entry_id p =? k)%string) ps
       then 1%nat else 0%nat) /\
  (forall (pre mid post : list PrayerEntry) (t : PrayerType) (c : string),
     countId "fajr"
       (normalized now
          (pre ++ Legacy "fajr" :: mid
               ++ Status (mkPrayerStatus "fajr" t c) :: post))
     = 1%nat).
Proof.
  assert (Hcount : forall l k,
             countId k (normalized now l)
             = if existsb (fun p => kept p && (entry_id p =? k)%string) l
               then 1%nat else 0%nat).
  { intros l k. rewrite normalized_spec. unfold spec_normalize.
    rewrite countId_dedupFirst. simpl. rewrite existsb_kept. reflexivity. }
  split; [apply normalized_spec|]. split; [|split; [|split]].
  - split.
    + intro Hdiff. destruct (cleanup now ps) as [l|] eqn:Hc.
      * rewrite (proj1 (cleanup_Some ps l Hc)). reflexivity.
      * exfalso. apply Hdiff. apply cleanup_None. exact Hc.
    + intro Hc. exact (proj2 (cleanup_Some ps _ Hc)).
  - intro s. rewrite <- normalized_spec. unfold cleanupEffect, normalized.
    destruct (cleanup now (prayers (daily s))); reflexivity.
  - apply Hcount.
  - intros pre mid post t c. rewrite Hcount, existsb_app. simpl.
    rewrite orb_true_r. reflexivity.
Qed.

(** C9, as stated, fails: an object entry whose id is the empty string is
    not kept as the first occurrence of its id; it is dropped. *)
Lemma anonymous_prayer_dropped :
  cleanup "2024-01-02T00:00:00.000Z" [Status anonymousPrayer] = Some [] /\
  normalized "2024-01-02T00:00:00.000Z" [Status anonymousPrayer] = [] /\
  spec_normalize "2024-01-02T00:00:00.000Z" [Status anonymousPrayer]
  = [Status anonymousPrayer] /\
  normalized "2024-01-02T00:00:00.000Z" [Status anonymousPrayer]
  <> spec_normalize "2024-01-02T00:00:00.000Z" [Status anonymousPrayer].
Proof. vm_compute. repeat split; try reflexivity. discriminate. Qed.

(** P4 on the two-entry list: the converted string stays, the later
    object goes. *)
Example legacy_fajr_once :
  normalized "2024-01-02T00:00:00.000Z" legacyPrayers
  = [Status (mkPrayerStatus "fajr" alone "2024-01-02T00:00:00.000Z")].
Proof. vm_compute. reflexivity. Qed.

(** C10. [resetStats] puts the workout stats back to their defaults and
    empties the history archive, whatever they held, and leaves the
    daily state, the user profile and the custom workouts as they were. *)
Theorem resetStats_erases_history (s : AppState) :
  stats (resetStats s) = DEFAULT_STATS /\
  history (resetStats s) = [] /\
  daily (resetStats s) = daily s /\
  user (resetStats s) = user s /\
  customWorkouts (resetStats s) = customWorkouts s.
Proof. unfold resetStats, setHistory, setStats. simpl. repeat split. Qed.

End PrayerFacts.

(** * Further properties of the timer: an uninterrupted session *)

Section SessionFacts.
Import Timer.

Lemma nthZ_app_middle {X : Type} (pre post : list X) (x : X) :
  nthZ (pre ++ x :: post) (lengthZ pre) = Some x.
Proof.
  unfold nthZ, lengthZ.
  destruct (Z.ltb_spec (Z.of_nat (List.length pre)) 0) as [H|_]; [lia|].
  rewrite Nat2Z.id, nth_error_app2 by lia.
  rewrite Nat.sub_diag. reflexivity.
Qed.

Lemma lengthZ_app {X : Type} (l l' : list X) :
  lengthZ (l ++ l') = lengthZ l + lengthZ l'.
Proof. unfold lengthZ. rewrite length_app. lia. Qed.

Lemma last_default_irrelevant {X : Type} (l : list X) (x d d' : X) :
  last (x :: l) d = last (x :: l) d'.
Proof.
  revert x. induction l as [|y l IH]; intro x; [reflexivity|].
  change (last (y :: l) d = last (y :: l) d'). apply IH.
Qed.

Lemma last_cons_default {X : Type} (l : list X) (x d : X) :
  last (x :: l) d = last l x.
Proof.
  destruct l as [|y l]; [reflexivity|].
  change (last (y :: l) d = last (y :: l) x). apply last_default_irrelevant.
Qed.

Lemma Elapses_trans (h h1 h2 : Hook) (n m : nat) :
  Elapses h n h1 -> Elapses h1 m h2 -> Elapses h (n + m) h2.
Proof.
  intros H1 H2. induction H1 as [h|h h' n Hrun Htime _ IH
                                 |h ha h' events n Hrun Htime Hb _ IH].
  - exact H2.
  - simpl. apply Elapses_tick; [exact Hrun|exact Htime|apply IH; exact H2].
  - eapply Elapses_boundary; [exact Hrun|exact Htime|exact Hb|].
    apply IH. exact H2.
Qed.

Lemma Elapses_seconds (h h' : Hook) (n n' : nat) :
  Elapses h n h' -> n = n' -> Elapses h n' h'.
Proof. intros H <-. exact H. Qed.

(** A running timer counts down to zero in as many ticks as it shows. *)
Lemma countdown (exercises : list Exercise) (t : nat) (s : TimerState) :
  isRunning s = true -> timeRemaining s = Z.of_nat t ->
  Elapses (mkHook exercises s) t (mkHook exercises (with_timeRemaining 0 s)).
Proof.
  revert s. induction t as [|t IH]; intros s Hrun Htime.
  - replace (with_timeRemaining 0 s) with s; [apply Elapses_now|].
    destruct s; simpl in *. subst. reflexivity.
  - apply Elapses_tick; [exact Hrun | simpl; lia |].
    unfold tick, dispatch. simpl. rewrite Hrun. simpl.
    specialize (IH (with_timeRemaining (Z.max 0 (timeRemaining s - 1)) s)).
    simpl in IH. apply IH; [exact Hrun | lia].
Qed.

(** Count down, then take the phase boundary. *)
Lemma countdown_then_boundary (exercises : list Exercise) (p : TimerPhase)
  (t j : Z) (e : Exercise) (k total : Z) (s' : TimerState)
  (events : list Event) (n : nat) (h' : Hook) :
  0 <= t ->
  phaseTransition exercises (during p 0 j e k total) = Ok (s', events) ->
  Elapses (mkHook exercises s') n h' ->
  Elapses (mkHook exercises (during p t j e k total)) (Z.to_nat t + n) h'.
Proof.
  intros Htime Hpt Hrest.
  eapply Elapses_trans.
  - apply countdown; [reflexivity | simpl; lia].
  - eapply Elapses_boundary; [reflexivity | reflexivity | | exact Hrest].
    unfold phaseBoundary.
    change (phaseTransition exercises (during p 0 j e k total))
      with (phaseTransition exercises
              (state (mkHook exercises
                        (with_timeRemaining 0 (during p t j e k total)))))
      in Hpt.
    simpl exercisesRef. rewrite Hpt. reflexivity.
Qed.

Lemma boundary_prep (exercises : list Exercise) (e : Exercise) (j k total : Z) :
  phaseTransition exercises (during PREP 0 j e k total)
  = Ok (during WORK (work e) j e k total, []).
Proof. reflexivity. Qed.

Lemma boundary_work_rest (exercises : list Exercise) (e : Exercise)
  (j k total : Z) :
  j < sets e \/ k < total - 1 ->
  phaseTransition exercises (during WORK 0 j e k total)
  = Ok (during REST (rest e) j e k total, []).
Proof.
  intro H. unfold phaseTransition. simpl.
  destruct (Z.ltb_spec j (sets e)); [reflexivity|].
  destruct (Z.ltb_spec k (total - 1)); [reflexivity|]. lia.
Qed.

Lemma boundary_work_complete (exercises : list Exercise) (e : Exercise)
  (j k total : Z) :
  ~ j < sets e -> ~ k < total - 1 ->
  phaseTransition exercises (during WORK 0 j e k total)
  = Ok ({| phase := COMPLETE; timeRemaining := 0; currentSet := j;
           totalSets := sets e; currentExerciseIndex := k;
           totalExercises := total; workTime := work e; restTime := rest e;
           isRunning := false |}, [OnWorkoutComplete]).
Proof.
  intros Hj Hk. unfold phaseTransition. simpl.
  destruct (Z.ltb_spec j (sets e)); [lia|].
  destruct (Z.ltb_spec k (total - 1)); [lia|]. reflexivity.
Qed.

Lemma boundary_rest_set (exercises : list Exercise) (e : Exercise)
  (j k total : Z) :
  j < sets e ->
  phaseTransition exercises (during REST 0 j e k total)
  = Ok (during WORK (work e) (j + 1) e k total, []).
Proof.
  intro Hj. unfold phaseTransition. simpl.
  destruct (Z.ltb_spec j (sets e)); [reflexivity|lia].
Qed.

Lemma boundary_rest_next (exercises : list Exercise) (e e' : Exercise)
  (j k total : Z) :
  ~ j < sets e -> k < total - 1 -> nthZ exercises (k + 1) = Some e' ->
  phaseTransition exercises (during REST 0 j e k total)
  = Ok (during PREP PREP_TIME 1 e' (k + 1) (lengthZ exercises),
        [OnExerciseComplete k]).
Proof.
  intros Hj Hk Hnext. unfold phaseTransition. simpl.
  destruct (Z.ltb_spec j (sets e)); [lia|].
  destruct (Z.ltb_spec k (total - 1)); [|lia].
  rewrite Hnext. reflexivity.
Qed.

(** From the start of work interval [j]: the [m] sets still to come, then
    the session's end or the next exercise's preparation. *)
Lemma work_loop (exercises : list Exercise) (e : Exercise) (k total : Z) :
  exercise_ok e ->
  forall (m : nat) (j : Z),
    Z.of_nat m = Z.max 0 (sets e - j) ->
    (~ k < total - 1 ->
     Elapses (mkHook exercises (during WORK (work e) j e k total))
       (Z.to_nat (work e + Z.of_nat m * (rest e + work e)))
       (mkHook exercises
          {| phase := COMPLETE; timeRemaining := 0;
             currentSet := j + Z.of_nat m; totalSets := sets e;
             currentExerciseIndex := k; totalExercises := total;
             workTime := work e; restTime := rest e; isRunning := false |}))
    /\
    (k < total - 1 ->
     forall e', nthZ exercises (k + 1) = Some e' ->
     Elapses (mkHook exercises (during WORK (work e) j e k total))
       (Z.to_nat (work e + Z.of_nat m * (rest e + work e) + rest e))
       (mkHook exercises
          (during PREP PREP_TIME 1 e' (k + 1) (lengthZ exercises)))).
Proof.
  intros [Hwork Hrest]. induction m as [|m IH]; intros j Hm.
  - split.
    + intro Hlast. eapply Elapses_seconds.
      * eapply countdown_then_boundary with (n := O);
          [exact Hwork | | apply Elapses_now].
        rewrite boundary_work_complete by lia.
        simpl. rewrite Z.add_0_r. reflexivity.
      * simpl. lia.
    + intros Hmore e' Hnext. eapply Elapses_seconds.
      * eapply countdown_then_boundary;
          [exact Hwork | apply boundary_work_rest; lia |].
        eapply countdown_then_boundary with (n := O);
          [exact Hrest | | apply Elapses_now].
        apply boundary_rest_next; [lia | exact Hmore | exact Hnext].
      * simpl. lia.
  - assert (Hj : j < sets e) by lia.
    assert (Hm' : Z.of_nat m = Z.max 0 (sets e - (j + 1))) by lia.
    destruct (IH (j + 1) Hm') as [IHlast IHmore].
    assert (Hround : forall n h',
               Elapses (mkHook exercises (during WORK (work e) (j + 1) e k total))
                       n h' ->
               Elapses (mkHook exercises (during WORK (work e) j e k total))
                       (Z.to_nat (work e) + (Z.to_nat (rest e) + n)) h').
    { intros n h' Hn.
      eapply countdown_then_boundary;
        [exact Hwork | apply boundary_work_rest; lia |].
      eapply countdown_then_boundary;
        [exact Hrest | apply boundary_rest_set; exact Hj |].
      exact Hn. }
    split.
    + intro Hlast. eapply Elapses_seconds.
      * apply Hround. specialize (IHlast Hlast).
        replace (j + Z.of_nat (S m)) with (j + 1 + Z.of_nat m) by lia.
        exact IHlast.
      * lia.
    + intros Hmore e' Hnext. eapply Elapses_seconds.
      * apply Hround. exact (IHmore Hmore e' Hnext).
      * lia.
Qed.

(** From the preparation of exercise [e], the rest of the plan. *)
Lemma plan_loop (rest_of_plan pre : list Exercise) (e : Exercise) :
  Forall exercise_ok (e :: rest_of_plan) ->
  Elapses
    (mkHook (pre ++ e :: rest_of_plan)
       (during PREP PREP_TIME 1 e (lengthZ pre)
          (lengthZ (pre ++ e :: rest_of_plan))))
    (Z.to_nat (planSeconds (e :: rest_of_plan)))
    (mkHook (pre ++ e :: rest_of_plan)
       (finished (last rest_of_plan e)
          (lengthZ (pre ++ e :: rest_of_plan) - 1)
          (lengthZ (pre ++ e :: rest_of_plan)))).
Proof.
  revert pre e. induction rest_of_plan as [|e' plan IH]; intros pre e Hok.
  - inversion Hok as [|? ? He _]; subst.
    pose proof He as [Hwork Hrest].
    destruct (work_loop (pre ++ [e]) e (lengthZ pre) (lengthZ (pre ++ [e])) He
                (Z.to_nat (Z.max 0 (sets e - 1))) 1) as [Hlast _]; [lia|].
    eapply Elapses_seconds.
    + eapply countdown_then_boundary;
        [unfold PREP_TIME; lia | apply boundary_prep |].
      specialize (Hlast ltac:(rewrite lengthZ_app; unfold lengthZ; simpl; lia)).
      replace (finished (last [] e) (lengthZ (pre ++ [e]) - 1)
                 (lengthZ (pre ++ [e])))
        with {| phase := COMPLETE; timeRemaining := 0;
                currentSet := 1 + Z.of_nat (Z.to_nat (Z.max 0 (sets e - 1)));
                totalSets := sets e; currentExerciseIndex := lengthZ pre;
                totalExercises := lengthZ (pre ++ [e]); workTime := work e;
                restTime := rest e; isRunning := false |}; [exact Hlast|].
      unfold finished, rounds. cbn [last]. f_equal; [lia|].
      rewrite lengthZ_app. unfold lengthZ. simpl List.length. lia.
    + unfold planSeconds, rounds, PREP_TIME in *. cbn [timeRemaining]. nia.
  - inversion Hok as [|? ? He Hrest_ok]; subst.
    pose proof He as [Hwork Hrest].
    assert (Hnext : nthZ (pre ++ e :: e' :: plan) (lengthZ pre + 1) = Some e').
    { replace (lengthZ pre + 1) with (lengthZ (pre ++ [e]))
        by (rewrite lengthZ_app; unfold lengthZ; simpl; lia).
      replace (pre ++ e :: e' :: plan)%list with ((pre ++ [e]) ++ e' :: plan)%list
        by (rewrite <- app_assoc; reflexivity).
      apply nthZ_app_middle. }
    destruct (work_loop (pre ++ e :: e' :: plan) e (lengthZ pre)
                (lengthZ (pre ++ e :: e' :: plan)) He
                (Z.to_nat (Z.max 0 (sets e - 1))) 1) as [_ Hmore]; [lia|].
    specialize (Hmore ltac:(rewrite lengthZ_app; unfold lengthZ; simpl; lia)
                      e' Hnext).
    specialize (IH (pre ++ [e])%list e' Hrest_ok).
    replace ((pre ++ [e]) ++ e' :: plan)%list with (pre ++ e :: e' :: plan)%list
      in IH by (rewrite <- app_assoc; reflexivity).
    replace (lengthZ (pre ++ [e])) with (lengthZ pre + 1) in IH
      by (rewrite lengthZ_app; unfold lengthZ; simpl; lia).
    eapply Elapses_seconds.
    + eapply countdown_then_boundary;
        [unfold PREP_TIME; lia | apply boundary_prep |].
      eapply Elapses_trans; [exact Hmore|].
      rewrite last_cons_default. exact IH.
    + assert (0 <= planSeconds (e' :: plan)).
      { clear - Hrest_ok. revert Hrest_ok. generalize (e' :: plan).
        induction l as [|x l IHl]; intro H; [simpl; lia|].
        inversion H as [|? ? [Hw Hr] Hl]; subst. specialize (IHl Hl).
        change (planSeconds (x :: l))
          with (PREP_TIME + rounds x * work x
                + match l with
                  | [] => (rounds x - 1) * rest x
                  | _ :: _ => rounds x * rest x
                  end + planSeconds l).
        unfold rounds, PREP_TIME. destruct l; nia. }
      change (planSeconds (e :: e' :: plan))
        with (PREP_TIME + rounds e * work e + rounds e * rest e
              + planSeconds (e' :: plan)).
      unfold rounds, PREP_TIME in *. simpl timeRemaining. nia.
Qed.

(** Once the timer has stopped, enough fuel makes [elapse] return it. *)
Lemma Elapses_elapse (h h' : Hook) (n : nat) :
  Elapses h n h' -> isRunning (state h') = false ->
  exists fuel0, forall fuel, (fuel0 <= fuel)%nat -> elapse fuel h = Ok (h', n).
Proof.
  intros H Hstop. induction H as [h|h h' n Hrun Htime _ IH
                                  |h ha h' events n Hrun Htime Hb _ IH].
  - exists O. intros fuel _. destruct fuel; simpl; [reflexivity|].
    rewrite Hstop. reflexivity.
  - destruct (IH Hstop) as [fuel0 Hfuel]. exists (S fuel0).
    intros fuel Hle. destruct fuel as [|fuel]; [lia|]. simpl.
    rewrite Hrun. destruct (Z.eqb_spec (timeRemaining (state h)) 0);
      [contradiction|].
    unfold tick, dispatch in Hfuel. rewrite Hfuel by lia. reflexivity.
  - destruct (IH Hstop) as [fuel0 Hfuel]. exists (S fuel0).
    intros fuel Hle. destruct fuel as [|fuel]; [lia|]. simpl.
    rewrite Hrun, Htime. simpl. rewrite Hb. simpl. apply Hfuel. lia.
Qed.

(** X1. An uninterrupted session of a non-empty plan with non-negative
    durations ends in COMPLETE, stopped, on the plan's last exercise,
    after exactly [planSeconds] ticks; [elapse] returns that result with
    any sufficient fuel. *)
Theorem session_completes (h : Hook) (e : Exercise) (plan : list Exercise) :
  Forall exercise_ok (e :: plan) ->
  Elapses (start (init (e :: plan) h))
    (Z.to_nat (planSeconds (e :: plan)))
    (mkHook (e :: plan)
       (finished (last plan e) (lengthZ (e :: plan) - 1) (lengthZ (e :: plan))))
  /\
  exists fuel0, forall fuel, (fuel0 <= fuel)%nat ->
    elapse fuel (start (init (e :: plan) h))
    = Ok (mkHook (e :: plan)
            (finished (last plan e) (lengthZ (e :: plan) - 1)
               (lengthZ (e :: plan))),
          Z.to_nat (planSeconds (e :: plan))).
Proof.
  intro Hok.
  assert (Hrun : Elapses (start (init (e :: plan) h))
                   (Z.to_nat (planSeconds (e :: plan)))
                   (mkHook (e :: plan)
                      (finished (last plan e) (lengthZ (e :: plan) - 1)
                         (lengthZ (e :: plan)))))
    by exact (plan_loop plan [] e Hok).
  split; [exact Hrun|].
  apply Elapses_elapse; [exact Hrun | reflexivity].
Qed.

Lemma session_completes_witness :
  Elapses (start (init threeExercises (mount [])))
    151
    (mkHook threeExercises
       {| phase := COMPLETE; timeRemaining := 0; currentSet := 2;
          totalSets := 2; currentExerciseIndex := 2; totalExercises := 3;
          workTime := 15; restTime := 10; isRunning := false |}).
Proof.
  assert (Hok : Forall exercise_ok threeExercises)
    by (repeat constructor; simpl; lia).
  exact (proj1 (session_completes (mount []) _ _ Hok)).
Defined.

Lemma fold_duration_shift (l : list Exercise) (a b : Z) :
  fold_left (fun total ex => total + sets ex * work ex + (sets ex - 1) * rest ex)
            l (a + b)
  = a + fold_left
          (fun total ex => total + sets ex * work ex + (sets ex - 1) * rest ex)
          l b.
Proof.
  revert b. induction l as [|x l IH]; intro b; simpl; [reflexivity|].
  rewrite <- IH. f_equal. lia.
Qed.

Lemma fold_duration (l : list Exercise) (a : Z) :
  fold_left (fun total ex => total + sets ex * work ex + (sets ex - 1) * rest ex)
            l a
  = a + calculateWorkoutDuration l.
Proof.
  unfold calculateWorkoutDuration. rewrite <- fold_duration_shift.
  f_equal. lia.
Qed.

Lemma planSeconds_estimate (plan : list Exercise) :
  Forall (fun e => 1 <= sets e) plan ->
  planSeconds plan
  = calculateWorkoutDuration plan + PREP_TIME * lengthZ plan
    + fold_right Z.add 0 (map rest (removelast plan)).
Proof.
  induction plan as [|e plan IH]; intro Hsets; [reflexivity|].
  inversion Hsets as [|? ? He Hplan]; subst. specialize (IH Hplan).
  change (planSeconds (e :: plan))
    with (PREP_TIME + rounds e * work e
          + match plan with
            | [] => (rounds e - 1) * rest e
            | _ :: _ => rounds e * rest e
            end + planSeconds plan).
  rewrite IH. unfold calculateWorkoutDuration at 2. simpl fold_left.
  rewrite fold_duration.
  replace (lengthZ (e :: plan)) with (lengthZ plan + 1)
    by (unfold lengthZ; simpl List.length; lia).
  unfold rounds. rewrite Z.max_r by exact He.
  unfold PREP_TIME. destruct plan as [|e' plan].
  - unfold calculateWorkoutDuration, lengthZ.
    cbn [fold_left removelast map fold_right List.length Z.of_nat]. lia.
  - change (removelast (e :: e' :: plan)) with (e :: removelast (e' :: plan)).
    cbn [map fold_right]. lia.
Qed.

Lemma estimate_nonneg (plan : list Exercise) :
  Forall exercise_ok plan -> Forall (fun e => 1 <= sets e) plan ->
  0 <= calculateWorkoutDuration plan.
Proof.
  induction plan as [|e plan IH]; intros Hok Hsets; [reflexivity|].
  inversion Hok as [|? ? [Hwork Hrest] Hok']; subst.
  inversion Hsets as [|? ? He Hsets']; subst.
  specialize (IH Hok' Hsets').
  unfold calculateWorkoutDuration. simpl fold_left. rewrite fold_duration. nia.
Qed.

Lemma rests_nonneg (plan : list Exercise) :
  Forall exercise_ok plan -> 0 <= fold_right Z.add 0 (map rest plan).
Proof.
  induction 1 as [|e plan [_ Hrest] _ IH]; simpl; lia.
Qed.

Lemma Forall_removelast {X : Type} (P : X -> Prop) (l : list X) :
  Forall P l -> Forall P (removelast l).
Proof.
  induction 1 as [|x l Hx Hl IH]; [constructor|].
  destruct l as [|y l]; [constructor|].
  change (removelast (x :: y :: l)) with (x :: removelast (y :: l)).
  constructor; assumption.
Qed.

(** X2. For a non-empty plan with non-negative durations and at least one
    set per exercise, the uninterrupted session started by [start] runs,
    until COMPLETE, [calculateWorkoutDuration] ticks plus the five seconds
    of preparation of every exercise plus one more rest for every
    exercise but the last: strictly more than the estimate. *)
Theorem session_exceeds_estimate (h : Hook) (e : Exercise)
  (plan : list Exercise) :
  Forall exercise_ok (e :: plan) ->
  Forall (fun x => 1 <= sets x) (e :: plan) ->
  Elapses (start (init (e :: plan) h))
    (Z.to_nat (calculateWorkoutDuration (e :: plan)
               + PREP_TIME * lengthZ (e :: plan)
               + fold_right Z.add 0 (map rest (removelast (e :: plan)))))
    (mkHook (e :: plan)
       (finished (last plan e) (lengthZ (e :: plan) - 1) (lengthZ (e :: plan))))
  /\
  0 <= calculateWorkoutDuration (e :: plan)
    < calculateWorkoutDuration (e :: plan)
      + PREP_TIME * lengthZ (e :: plan)
      + fold_right Z.add 0 (map rest (removelast (e :: plan))).
Proof.
  intros Hok Hsets. split.
  - rewrite <- (planSeconds_estimate (e :: plan) Hsets).
    exact (plan_loop plan [] e Hok).
  - pose proof (estimate_nonneg _ Hok Hsets) as Hest.
    pose proof (rests_nonneg _ (Forall_removelast _ _ Hok)) as Hrests.
    assert (Hlen : 1 <= lengthZ (e :: plan))
      by (unfold lengthZ; simpl List.length; lia).
    unfold PREP_TIME. lia.
Qed.

Lemma session_exceeds_estimate_witness :
  Elapses (start (init threeExercises (mount [])))
    151
    (mkHook threeExercises
       {| phase := COMPLETE; timeRemaining := 0; currentSet := 2;
          totalSets := 2; currentExerciseIndex := 2; totalExercises := 3;
          workTime := 15; restTime := 10; isRunning := false |}) /\
  0 <= 124 < 151.
Proof.
  assert (Hok : Forall exercise_ok threeExercises)
    by (repeat constructor; simpl; lia).
  assert (Hsets : Forall (fun x => 1 <= sets x) threeExercises)
    by (repeat constructor; simpl; lia).
  exact (session_exceeds_estimate (mount []) _ _ Hok Hsets).
Defined.

(** X3. [start] is not refused on an empty plan: the timer runs the five
    seconds of preparation and then completes. *)
Theorem empty_plan_session (h : Hook) :
  phase (state (start (init [] h))) = PREP /\
  isRunning (state (start (init [] h))) = true /\
  Elapses (start (init [] h)) 5
    (mkHook [] (with_phase COMPLETE initialState)).
Proof.
  split; [reflexivity|]. split; [reflexivity|].
  unfold start, init, dispatch. simpl. unfold PREP_TIME.
  do 5 (eapply Elapses_tick; [reflexivity | simpl; lia |];
        unfold tick, dispatch; simpl).
  eapply Elapses_boundary; [reflexivity | reflexivity | reflexivity |].
  eapply Elapses_boundary; [reflexivity | reflexivity | reflexivity |].
  apply Elapses_now.
Qed.

Lemma nthZ_skipn {X : Type} (l : list X) (i : Z) (x : X) :
  nthZ l i = Some x ->
  0 <= i < lengthZ l /\
  exists tail, skipn (Z.to_nat i) l = x :: tail /\
               lengthZ (x :: tail) = lengthZ l - i.
Proof.
  unfold nthZ, lengthZ. destruct (Z.ltb_spec i 0) as [|Hi]; [discriminate|].
  intro Hnth. destruct (nth_error_split l (Z.to_nat i) Hnth)
    as (l1 & l2 & -> & Hlen).
  rewrite length_app. simpl List.length. split; [lia|].
  exists l2. rewrite skipn_app, skipn_all2 by lia.
  replace (Z.to_nat i - List.length l1)%nat with O by lia.
  simpl. split; [reflexivity|]. lia.
Qed.

Lemma setExercise_in_range (exercises : list Exercise) (s : TimerState)
  (index : Z) (e : Exercise) :
  nthZ exercises index = Some e ->
  setExercise index (mkHook exercises s)
  = mkHook exercises
      {| phase := IDLE; timeRemaining := PREP_TIME; currentSet := 1;
         totalSets := sets e; currentExerciseIndex := 0;
         totalExercises := lengthZ exercises - index; workTime := work e;
         restTime := rest e; isRunning := false |}.
Proof.
  intro Hnth. destruct (nthZ_skipn _ _ _ Hnth) as [[Hlo Hhi] (tail & Hskip & Hlen)].
  unfold setExercise, dispatch. simpl.
  destruct (Z.geb_spec index 0); [|lia].
  destruct (Z.ltb_spec index (lengthZ exercises)); [|lia].
  simpl. rewrite Hskip, Hlen. reflexivity.
Qed.

(** X4. [setExercise] ignores an index outside the plan; inside it, it
    loads that exercise but numbers it 0 of the exercises from there on,
    without touching the ref, so the [currentExercise] the hook reports is
    the plan's first exercise. *)
Theorem setExercise_jump (h : Hook) (index : Z) :
  (index < 0 \/ lengthZ (exercisesRef h) <= index -> setExercise index h = h) /\
  (forall e, nthZ (exercisesRef h) index = Some e ->
     setExercise index h
     = mkHook (exercisesRef h)
         {| phase := IDLE; timeRemaining := PREP_TIME; currentSet := 1;
            totalSets := sets e; currentExerciseIndex := 0;
            totalExercises := lengthZ (exercisesRef h) - index;
            workTime := work e; restTime := rest e; isRunning := false |}
     /\ currentExercise (setExercise index h) = nthZ (exercisesRef h) 0).
Proof.
  destruct h as [exs s]. simpl. split.
  - intro Hout. unfold setExercise. simpl.
    destruct (Z.geb_spec index 0); simpl; [|reflexivity].
    destruct (Z.ltb_spec index (lengthZ exs)); [lia|reflexivity].
  - intros e Hnth. rewrite (setExercise_in_range exs s index e Hnth).
    split; reflexivity.
Qed.

Lemma setExercise_jump_witness :
  setExercise 1 (mount threeExercises)
  = mkHook threeExercises
      {| phase := IDLE; timeRemaining := PREP_TIME; currentSet := 1;
         totalSets := 3; currentExerciseIndex := 0; totalExercises := 2;
         workTime := 20; restTime := 7; isRunning := false |}.
Proof.
  apply (proj1 (proj2 (setExercise_jump (mount threeExercises) 1)
                  {| name := "Squats"; detail := "Below parallel";
                     sets := 3; work := 20; rest := 7 |} eq_refl)).
Defined.

End SessionFacts.

(** * Properties of the workout screen's handlers *)

Section EngineFacts.
Import Timer Engine.







Lemma step_keeps_ref (h h' : Hook) (o : Op) :
  (forall exercises, o <> OpInit exercises) ->
  step h o = Ok h' -> exercisesRef h' = exercisesRef h.
Proof.
  intros Hnot Hstep. destruct o; simpl in Hstep;
    unfold start, pause, resume, tick, toggle, reset, setExercise,
      dispatch, phaseBoundary in Hstep.
  - contradiction (Hnot exercises). reflexivity.
  - injection Hstep as <-. reflexivity.
  - injection Hstep as <-. reflexivity.
  - injection Hstep as <-. reflexivity.
  - injection Hstep as <-. reflexivity.
  - injection Hstep as <-.
    destruct (phase (state h)); try reflexivity;
      destruct (isRunning (state h)); reflexivity.
  - injection Hstep as <-. reflexivity.
  - injection Hstep as <-.
    destruct ((index >=? 0) && (index <? lengthZ (exercisesRef h)));
      reflexivity.
  - destruct (phaseTransition (exercisesRef h) (state h)) as [r|err];
      simpl in Hstep; [|discriminate].
    injection Hstep as <-. reflexivity.
Qed.

(** X6. [reset] depends on the plan in the ref alone: after any
    operations that do not replace the plan it returns the hook to the
    state [init] gave it, IDLE and stopped. *)
Theorem reset_restores_plan (ops : list Op) (h h' : Hook) :
  (forall exercises, ~ In (OpInit exercises) ops) ->
  run ops h = Ok h' ->
  reset h' = init (exercisesRef h) h /\
  phase (state (reset h')) = IDLE /\ isRunning (state (reset h')) = false.
Proof.
  revert h. induction ops as [|o ops IH]; intros h Hnone Hrun.
  - simpl in Hrun. injection Hrun as <-.
    unfold reset, init, dispatch. simpl.
    split; [reflexivity|]. destruct (exercisesRef h); split; reflexivity.
  - simpl in Hrun. destruct (step h o) as [h1|err] eqn:Hstep;
      simpl in Hrun; [|discriminate].
    assert (Href : exercisesRef h1 = exercisesRef h).
    { apply (step_keeps_ref h h1 o); [|exact Hstep].
      intros exercises ->. apply (Hnone exercises). left. reflexivity. }
    destruct (IH h1) as [Hreset Hrest]; [|exact Hrun|].
    + intros exercises Hin. apply (Hnone exercises). right. exact Hin.
    + split; [|exact Hrest].
      rewrite Hreset, Href. unfold init. simpl. destruct (exercisesRef h);
        reflexivity.
Qed.

Lemma reset_restores_plan_witness :
  reset (start (setExercise 2 (init threeExercises (mount []))))
  = init threeExercises (init threeExercises (mount [])).
Proof.
  apply (proj1 (reset_restores_plan [OpSetExercise 2; OpStart]
                  (init threeExercises (mount []))
                  (start (setExercise 2 (init threeExercises (mount []))))
                  ltac:(intros exercises [H|[H|[]]]; discriminate H)
                  eq_refl)).
Defined.

End EngineFacts.

(** * Further properties of the persisted-state container *)

Section ContainerFacts.
Import Persisted.
Context {T W : Type}.
Variable defaultValue : T.

Ltac container :=
  unfold load, stalenessCheck, initializer, checkMidnight, persist, try_catch,
    bindM, getItem, setItem, JSON_parse, ret, throw, getTodayDateString,
    call, setState, console_error, setClock in *;
  simpl in *.

(** X7. With nothing stored, or with stored text that does not parse, the
    container starts from the default: no callback runs, nothing is
    logged, the slot is left as it was. *)
Theorem load_falls_back (resetAtMidnight : bool)
  (onReset : option (Callback T W)) (s : Sys T W) :
  storage s = None \/ storage s = Some Garbage ->
  load defaultValue resetAtMidnight onReset s
  = mkSys (clock s) (storage s) defaultValue (console s) (world s).
Proof.
  destruct s as [today stored current lines w]. simpl.
  intros [->| ->]; reflexivity.
Qed.

(** X8. Neither the initializer nor [checkMidnight] ever throws, whatever
    is stored and whatever the callback does. *)
Theorem container_never_throws (resetAtMidnight : bool)
  (onReset : option (Callback T W)) (s : Sys T W) :
  (exists v, snd (initializer defaultValue resetAtMidnight onReset s) = Ok v) /\
  snd (checkMidnight defaultValue onReset s) = Ok tt.
Proof.
  destruct s as [today stored current lines w]. split.
  - container. destruct stored as [[|d]|]; simpl;
      try (eexists; reflexivity).
    destruct resetAtMidnight; simpl; [|eexists; reflexivity].
    destruct (date d =? today)%string; simpl; [eexists; reflexivity|].
    destruct onReset as [f|]; simpl; [|eexists; reflexivity].
    destruct (f (value d) (date d) w) as [w' [[]|e]]; simpl;
      eexists; reflexivity.
  - container. destruct stored as [[|d]|]; simpl; try reflexivity.
    destruct (date d =? today)%string; simpl; [reflexivity|].
    destruct onReset as [f|]; simpl; [|reflexivity].
    destruct (f (value d) (date d) w) as [w' [[]|e]]; reflexivity.
Qed.

(** X9. Without the midnight reset (useSimplePersistedState) the stored
    value comes back verbatim whatever its date, the callback is never
    called, and the staleness check does nothing. *)
Theorem simple_state_ignores_dates (onReset : option (Callback T W))
  (s : Sys T W) (d : PersistedData T) :
  storage s = Some (Json d) ->
  load defaultValue false onReset s
  = mkSys (clock s) (storage s) (value d) (console s) (world s) /\
  stalenessCheck defaultValue false onReset s = s.
Proof.
  destruct s as [today stored current lines w]. simpl.
  intros ->. split; reflexivity.
Qed.

(** X10. What [persist] writes, [load] reads back on the same day: the
    live value is unchanged and no callback runs.  Loaded on a later day,
    the same envelope goes to the callback with the day it was written
    and the live value becomes the default. *)
Theorem persist_load_round_trip (resetAtMidnight : bool)
  (onReset : option (Callback T W)) (s : Sys T W) :
  load defaultValue resetAtMidnight onReset (fst (persist s))
  = fst (persist s) /\
  forall (f : Callback T W) (today : string) (w' : W),
    today <> clock s ->
    f (live s) (clock s) (world s) = (w', Ok tt) ->
    load defaultValue true (Some f) (setClock today (fst (persist s)))
    = mkSys today (Some (Json (mkPersistedData (clock s) (live s))))
            defaultValue (console s) w'.
Proof.
  split.
  - container. destruct resetAtMidnight; simpl; [|reflexivity].
    rewrite String.eqb_refl. reflexivity.
  - intros f today w' Hday Hf. container.
    rewrite (proj2 (String.eqb_neq _ _) (not_eq_sym Hday)). simpl.
    rewrite Hf. reflexivity.
Qed.

(** X11. [checkMidnight] never writes the storage slot.  So, until the
    persist effect has run, a second check finds the same stale envelope
    and calls the callback again with the same arguments; once [persist]
    has run, the check does nothing. *)
Theorem checkMidnight_repeats_until_persist
  (onReset : option (Callback T W)) (s : Sys T W) :
  storage (fst (checkMidnight defaultValue onReset s)) = storage s /\
  clock (fst (checkMidnight defaultValue onReset s)) = clock s /\
  checkMidnight defaultValue onReset (fst (persist s)) = (fst (persist s), Ok tt)
  /\
  forall (f : Callback T W) (d : PersistedData T) (w1 w2 : W),
    storage s = Some (Json d) -> date d <> clock s ->
    f (value d) (date d) (world s) = (w1, Ok tt) ->
    f (value d) (date d) w1 = (w2, Ok tt) ->
    fst (checkMidnight defaultValue (Some f)
           (fst (checkMidnight defaultValue (Some f) s)))
    = mkSys (clock s) (storage s) defaultValue (console s) w2.
Proof.
  destruct s as [today stored current lines w]. simpl.
  assert (Hkeep :
            storage (fst (checkMidnight defaultValue onReset
                            (mkSys today stored current lines w))) = stored /\
            clock (fst (checkMidnight defaultValue onReset
                          (mkSys today stored current lines w))) = today).
  { container. destruct stored as [[|d]|]; simpl; try (split; reflexivity).
    destruct (date d =? today)%string; simpl; [split; reflexivity|].
    destruct onReset as [f|]; simpl; [|split; reflexivity].
    destruct (f (value d) (date d) w) as [w' [[]|e]]; split; reflexivity. }
  destruct Hkeep as [Hstorage Hclock].
  split; [exact Hstorage|]. split; [exact Hclock|]. split.
  - container. rewrite String.eqb_refl. reflexivity.
  - intros f d w1 w2 Hstored Hstale Hf1 Hf2. subst stored. container.
    rewrite (proj2 (String.eqb_neq _ _) Hstale). simpl.
    rewrite Hf1. simpl.
    rewrite (proj2 (String.eqb_neq _ _) Hstale). simpl.
    rewrite Hf2. reflexivity.
Qed.

End ContainerFacts.

Lemma load_falls_back_witness :
  Persisted.load 0 true (Some Persisted.failingCallback)
    (Persisted.mkSys "2024-01-02" (Some Persisted.Garbage) 7 [] tt)
  = Persisted.mkSys "2024-01-02" (Some Persisted.Garbage) 0 [] tt.
Proof.
  apply (load_falls_back 0 true (Some Persisted.failingCallback)
           (Persisted.mkSys "2024-01-02" (Some Persisted.Garbage) 7 [] tt)).
  right. reflexivity.
Defined.

Lemma simple_state_ignores_dates_witness :
  Persisted.load 0 false (Some Persisted.failingCallback) Persisted.staleSys
  = Persisted.staleSys.
Proof.
  apply (proj1 (simple_state_ignores_dates 0 (Some Persisted.failingCallback)
                  Persisted.staleSys
                  (Persisted.mkPersistedData "2024-01-01" 7) eq_refl)).
Defined.

Lemma persist_load_round_trip_witness :
  Persisted.load 0 true (Some Persisted.recordingCallback)
    (Persisted.setClock "2024-01-02"
       (fst (Persisted.persist (Persisted.mkSys "2024-01-01" None 7 [] []))))
  = Persisted.mkSys "2024-01-02"
      (Some (Persisted.Json (Persisted.mkPersistedData "2024-01-01" 7)))
      0 [] [(7, "2024-01-01")].
Proof.
  apply (proj2 (persist_load_round_trip 0 true
                  (Some Persisted.recordingCallback)
                  (Persisted.mkSys "2024-01-01" None 7 [] []))
           Persisted.recordingCallback "2024-01-02" [(7, "2024-01-01")]).
  - discriminate.
  - reflexivity.
Defined.

Lemma checkMidnight_repeats_until_persist_witness :
  fst (Persisted.checkMidnight 0 (Some Persisted.recordingCallback)
         (fst (Persisted.checkMidnight 0 (Some Persisted.recordingCallback)
                 Persisted.reopenedSys)))
  = Persisted.mkSys "2024-01-02"
      (Some (Persisted.Json (Persisted.mkPersistedData "2024-01-01" 7)))
      0 [] [(7, "2024-01-01"); (7, "2024-01-01")].
Proof.
  apply (proj2 (proj2 (proj2 (checkMidnight_repeats_until_persist
                                0 (Some Persisted.recordingCallback)
                                Persisted.reopenedSys)))
           Persisted.recordingCallback
           (Persisted.mkPersistedData "2024-01-01" 7)
           [(7, "2024-01-01")] [(7, "2024-01-01"); (7, "2024-01-01")]).
  - reflexivity.
  - discriminate.
  - reflexivity.
  - reflexivity.
Defined.

(** * Further properties of the application state *)

Section SortFacts.
Import App.
Variable E : Type.
Variable compareFn : E -> E -> comparison.
Variable le : E -> E -> Prop.
Hypothesis le_not_Gt : forall x y, compareFn x y <> Gt -> le x y.
Hypothesis le_Gt : forall x y, compareFn x y = Gt -> le y x.
Hypothesis le_trans : forall x y z, le x y -> le y z -> le x z.

Lemma insert_Permutation (x : E) (l : list E) :
  Permutation (insert compareFn x l) (x :: l).
Proof.
  induction l as [|y l IH]; simpl; [apply Permutation_refl|].
  destruct (compareFn x y); try apply Permutation_refl.
  eapply perm_trans; [apply perm_skip; exact IH | apply perm_swap].
Qed.

Lemma sort_Permutation (l : list E) : Permutation (sort compareFn l) l.
Proof.
  induction l as [|x l IH]; simpl; [apply perm_nil|].
  eapply perm_trans; [apply insert_Permutation | apply perm_skip; exact IH].
Qed.

Lemma insert_StronglySorted (x : E) (l : list E) :
  StronglySorted le l -> StronglySorted le (insert compareFn x l).
Proof.
  induction l as [|y l IH]; intro Hsorted; simpl.
  - repeat constructor.
  - inversion Hsorted as [|? ? Htail Hhead]; subst.
    destruct (compareFn x y) eqn:Hcmp.
    + constructor; [exact Hsorted|].
      assert (Hxy : le x y) by (apply le_not_Gt; congruence).
      constructor; [exact Hxy|].
      eapply Forall_impl; [|exact Hhead]. intros z Hz.
      eapply le_trans; eassumption.
    + constructor; [exact Hsorted|].
      assert (Hxy : le x y) by (apply le_not_Gt; congruence).
      constructor; [exact Hxy|].
      eapply Forall_impl; [|exact Hhead]. intros z Hz.
      eapply le_trans; eassumption.
    + constructor; [apply IH; exact Htail|].
      apply Forall_forall. intros z Hz.
      apply (Permutation_in _ (insert_Permutation x l)) in Hz.
      destruct Hz as [<-|Hz]; [apply le_Gt; exact Hcmp|].
      exact (proj1 (Forall_forall _ _) Hhead z Hz).
Qed.

Lemma sort_StronglySorted (l : list E) : StronglySorted le (sort compareFn l).
Proof.
  induction l as [|x l IH]; simpl; [constructor|].
  apply insert_StronglySorted. exact IH.
Qed.

End SortFacts.

Section DailyFacts.
Import App.

(** X12. After [addTask] the task list is in the order of the comparator
    the code sorts with, for any collation that is a consistent comparator
    (a total preorder): no task is followed, anywhere later in the list,
    by one whose time [localeCompare] puts strictly before its own.  The
    list holds exactly the old tasks and the new one under its generated
    id, whatever the order was before. *)
Theorem addTask_sorts (collate : string -> string -> comparison)
  (newId : string) (task : Task) (d : DailyState) :
  (forall x y, collate x y = Gt -> collate y x <> Gt) ->
  (forall x y z, collate x y <> Gt -> collate y z <> Gt -> collate x z <> Gt) ->
  StronglySorted (earlierFirst collate) (tasks (addTask collate newId task d)) /\
  Permutation (tasks (addTask collate newId task d))
    (mkTask newId (title task) (subtitle task) (time task) (task_type task)
       (task_icon task) (category task) (task_completed task) (meta task)
     :: tasks d) /\
  prayers (addTask collate newId task d) = prayers d /\
  protein (addTask collate newId task d) = protein d.
Proof.
  intros Hflip Htrans. unfold addTask. simpl.
  split; [|split; [|split; reflexivity]].
  - apply sort_StronglySorted.
    + intros x y H. exact H.
    + intros x y H. apply Hflip. exact H.
    + intros x y z. unfold earlierFirst. apply Htrans.
  - eapply perm_trans; [apply sort_Permutation|].
    eapply perm_trans; [apply Permutation_app_comm|]. apply Permutation_refl.
Qed.

Lemma compare_flip (x y : string) :
  String.compare x y = Gt -> String.compare y x <> Gt.
Proof. intro H. rewrite String.compare_antisym, H. discriminate. Qed.

Lemma compare_not_Gt_trans (x y z : string) :
  String.compare x y <> Gt -> String.compare y z <> Gt ->
  String.compare x z <> Gt.
Proof.
  intros Hxy Hyz.
  assert (Hleb : forall a b, String.compare a b <> Gt <-> String.leb a b = true).
  { intros a b. unfold String.leb.
    destruct (String.compare a b); split; congruence. }
  apply Hleb. apply (leb_trans x y z); apply Hleb; assumption.
Qed.

Lemma addTask_sorts_witness :
  StronglySorted (earlierFirst String.compare)
    (tasks (addTask String.compare "custom-1" lunch
              (with_tasks [with_completed (Some false) lunch] sampleDaily))).
Proof.
  apply (proj1 (addTask_sorts String.compare "custom-1" lunch
                  (with_tasks [with_completed (Some false) lunch] sampleDaily)
                  compare_flip compare_not_Gt_trans)).
Defined.

(** X13. [saveDailyProgress] never drops or alters a record: the history
    afterwards is a rearrangement of the old history, with the new record
    added exactly when the date had none; stats and daily state are
    untouched. *)
Theorem saveDailyProgress_keeps_records (staleDaily : DailyState)
  (staleDate : string) (s : AppState) :
  (countDate staleDate (history s) <> 0%nat ->
   history (saveDailyProgress staleDaily staleDate s) = history s) /\
  (countDate staleDate (history s) = 0%nat ->
   Permutation (history (saveDailyProgress staleDaily staleDate s))
     (makeRecord (stats s) staleDaily staleDate :: history s)) /\
  stats (saveDailyProgress staleDaily staleDate s) = stats s /\
  daily (saveDailyProgress staleDaily staleDate s) = daily s.
Proof.
  unfold saveDailyProgress, setHistory. simpl.
  split; [|split; [|split; reflexivity]].
  - intro H. apply archive_present. exact H.
  - intro H. rewrite archive_absent by exact H.
    eapply perm_trans; [apply sort_Permutation|].
    apply Permutation_app_comm.
Qed.

Lemma saveDailyProgress_keeps_records_witness :
  Permutation
    (history (saveDailyProgress sampleDaily "2024-01-01" sampleState))
    (makeRecord (stats sampleState) sampleDaily "2024-01-01"
     :: history sampleState).
Proof.
  apply (proj1 (proj2 (saveDailyProgress_keeps_records sampleDaily
                         "2024-01-01" sampleState))).
  reflexivity.
Defined.

(** X14. On whole-number counters and deltas whose sums are safe integers
    (where the addition of JS numbers is exact), the protein, water and
    mindfulness counters stay safe integers and never go below zero; a
    decrease that would is cut off at zero.  Adding a non-negative amount to
    a non-negative counter and taking it away again restores the daily
    state. *)
Theorem trackers_saturate (delta : Z) (d : DailyState) :
  exactSum (current (protein d)) delta ->
  exactSum (glasses (hydration d)) delta ->
  exactSum (minutes (mindfulness d)) delta ->
  (0 <= current (protein (updateProtein delta d)) /\
   safeInteger (current (protein (updateProtein delta d)))) /\
  (0 <= glasses (hydration (updateHydration delta d)) /\
   safeInteger (glasses (hydration (updateHydration delta d)))) /\
  (0 <= minutes (mindfulness (updateMindfulness delta d)) /\
   safeInteger (minutes (mindfulness (updateMindfulness delta d)))) /\
  (current (protein d) + delta <= 0 ->
   current (protein (updateProtein delta d)) = 0) /\
  (glasses (hydration d) + delta <= 0 ->
   glasses (hydration (updateHydration delta d)) = 0) /\
  (minutes (mindfulness d) + delta <= 0 ->
   minutes (mindfulness (updateMindfulness delta d)) = 0) /\
  (0 <= delta -> 0 <= current (protein d) ->
   exactSum (current (protein (updateProtein delta d))) (- delta) /\
   updateProtein (- delta) (updateProtein delta d) = d) /\
  (0 <= delta -> 0 <= glasses (hydration d) ->
   exactSum (glasses (hydration (updateHydration delta d))) (- delta) /\
   updateHydration (- delta) (updateHydration delta d) = d) /\
  (0 <= delta -> 0 <= minutes (mindfulness d) ->
   exactSum (minutes (mindfulness (updateMindfulness delta d))) (- delta) /\
   updateMindfulness (- delta) (updateMindfulness delta d) = d).
Proof.
  unfold exactSum, safeInteger, updateProtein, updateHydration,
    updateMindfulness, with_protein, with_hydration, with_mindfulness.
  destruct d as [dt ts [c g] [gl hg] nn ar [mi mg] ps]. simpl.
  change (2 ^ 53) with 9007199254740992.
  intros Hp Hh Hm.
  repeat split; try lia; intros; repeat f_equal; lia.
Qed.

Lemma trackers_saturate_witness :
  updateProtein (- 25) (updateProtein 25 sampleDaily) = sampleDaily.
Proof.
  assert (Hp : exactSum (current (protein sampleDaily)) 25)
    by (vm_compute; intuition discriminate).
  assert (Hh : exactSum (glasses (hydration sampleDaily)) 25)
    by (vm_compute; intuition discriminate).
  assert (Hm : exactSum (minutes (mindfulness sampleDaily)) 25)
    by (vm_compute; intuition discriminate).
  apply (proj1 (proj2 (proj2 (proj2 (proj2 (proj2 (proj2
           (trackers_saturate 25 sampleDaily Hp Hh Hm)))))))).
  - lia.
  - simpl. lia.
Defined.

Lemma notCompleted_thrice (c : option bool) :
  notCompleted (notCompleted (notCompleted c)) = notCompleted c.
Proof. destruct c as [[]|]; reflexivity. Qed.

(** X15. [toggleTask] flips the tasks with the given id and nothing else:
    at every position, a task with that id comes back with [completed] set
    to the negation of its old truth value (a missing field counts as
    false, so it becomes true) and all its other fields as they were, and a
    task with another id comes back as it was; the rest of the daily state
    is untouched.  A task without a [completed] field is therefore not
    restored by a second toggle, so three toggles equal one; two toggles
    restore the list when every task with that id has the field. *)
Theorem toggleTask_twice (taskId : string) (d : DailyState) :
  (forall (i : nat) (t : Task), nth_error (tasks d) i = Some t ->
     task_id t = taskId ->
     exists t', nth_error (tasks (toggleTask taskId d)) i = Some t' /\
       task_completed t'
       = Some (negb (match task_completed t with
                     | Some b => b
                     | None => false
                     end)) /\
       with_completed (task_completed t) t' = t) /\
  (forall (i : nat) (t : Task), nth_error (tasks d) i = Some t ->
     task_id t <> taskId ->
     nth_error (tasks (toggleTask taskId d)) i = Some t) /\
  List.length (tasks (toggleTask taskId d)) = List.length (tasks d) /\
  with_tasks (tasks d) (toggleTask taskId d) = d /\
  toggleTask taskId (toggleTask taskId (toggleTask taskId d))
  = toggleTask taskId d /\
  (Forall (fun t => task_id t = taskId -> task_completed t <> None) (tasks d) ->
   toggleTask taskId (toggleTask taskId d) = d) /\
  map task_id (tasks (toggleTask taskId d)) = map task_id (tasks d).
Proof.
  unfold toggleTask, with_tasks. simpl.
  split; [|split; [|split; [|split; [|split; [|split]]]]].
  - intros i t Hi Hid. rewrite nth_error_map, Hi. simpl.
    apply String.eqb_eq in Hid. rewrite Hid.
    eexists. split; [reflexivity|]. unfold with_completed. simpl.
    destruct t as [ti tt su tm ty ic ca [[]|] me]; simpl; auto.
  - intros i t Hi Hid. rewrite nth_error_map, Hi. simpl.
    apply String.eqb_neq in Hid. rewrite Hid. reflexivity.
  - apply length_map.
  - destruct d; reflexivity.
  - f_equal. rewrite !map_map. apply map_ext. intro t.
    destruct (task_id t =? taskId)%string eqn:Heq; simpl; rewrite ?Heq;
      simpl; rewrite ?Heq; [|reflexivity].
    unfold with_completed. simpl. rewrite notCompleted_thrice. reflexivity.
  - intro Hdef. destruct d as [dt ts pr hy nn ar mi ps]. simpl in *. f_equal.
    rewrite map_map. rewrite <- (map_id ts) at 2.
    apply map_ext_in. intros t Hin.
    pose proof (proj1 (Forall_forall _ _) Hdef t Hin) as Ht.
    destruct (task_id t =? taskId)%string eqn:Heq; simpl; rewrite ?Heq;
      [|reflexivity].
    apply String.eqb_eq in Heq. specialize (Ht Heq).
    destruct t as [i ti su tm ty ic ca co me]. unfold with_completed.
    simpl in *. destruct co as [[]|]; [reflexivity|reflexivity|].
    contradiction Ht. reflexivity.
  - rewrite map_map. apply map_ext. intro t.
    destruct (task_id t =? taskId)%string; reflexivity.
Qed.

Lemma toggleTask_twice_witness :
  toggleTask "t-lunch"
    (toggleTask "t-lunch"
       (with_tasks [with_completed (Some false) lunch] sampleDaily))
  = with_tasks [with_completed (Some false) lunch] sampleDaily.
Proof.
  apply (proj1 (proj2 (proj2 (proj2 (proj2 (proj2
           (toggleTask_twice "t-lunch"
              (with_tasks [with_completed (Some false) lunch]
                 sampleDaily)))))))).
  repeat constructor. simpl. discriminate.
Defined.

End DailyFacts.

Section PrayerMarkFacts.
Import App.

Lemma find_none_filter (k : string) (ps : list PrayerEntry) :
  find (hasId k) ps = None ->
  filter (fun p => negb (hasId k p)) ps = ps /\ countMarked k ps = 0%nat.
Proof.
  unfold countMarked. induction ps as [|p ps IH]; simpl; [auto|].
  destruct (hasId k p); simpl; [discriminate|].
  intro H. destruct (IH H) as [-> ->]. auto.
Qed.

Lemma find_some_marked (k : string) (ps : list PrayerEntry) (p : PrayerEntry) :
  find (hasId k) ps = Some p ->
  exists st, p = Status st /\ id st = k /\ (1 <= countMarked k ps)%nat.
Proof.
  unfold countMarked. induction ps as [|q ps IH]; simpl; [discriminate|].
  destruct (hasId k q) eqn:Hq; simpl.
  - intro H. injection H as <-. destruct q as [s|st]; [discriminate|].
    exists st. unfold hasId in Hq. simpl in Hq. apply String.eqb_eq in Hq.
    repeat split; [exact Hq | lia].
  - intro H. destruct (IH H) as (st & -> & Hid & Hc). exists st. auto.
Qed.

Lemma hasId_retype (k k' : string) (t : PrayerType) (p : PrayerEntry) :
  hasId k' (if hasId k p then retype t p else p) = hasId k' p.
Proof. destruct (hasId k p); [|reflexivity]. destruct p; reflexivity. Qed.

Lemma countMarked_retype (k k' : string) (t : PrayerType)
  (ps : list PrayerEntry) :
  countMarked k' (map (fun p => if hasId k p then retype t p else p) ps)
  = countMarked k' ps.
Proof.
  unfold countMarked. induction ps as [|p ps IH]; simpl; [reflexivity|].
  rewrite hasId_retype. destruct (hasId k' p); simpl; rewrite IH; reflexivity.
Qed.

Lemma countMarked_removed (k k' : string) (ps : list PrayerEntry) :
  (countMarked k' (filter (fun p => negb (hasId k p)) ps)
   <= countMarked k' ps)%nat /\
  countMarked k (filter (fun p => negb (hasId k p)) ps) = 0%nat.
Proof.
  unfold countMarked. induction ps as [|p ps [IH1 IH2]]; simpl; [auto|].
  destruct (hasId k p) eqn:Hk; simpl.
  - destruct (hasId k' p); simpl; split; try lia; exact IH2.
  - rewrite Hk. destruct (hasId k' p); simpl; split; try lia; exact IH2.
Qed.

Lemma countMarked_added (k k' : string) (st : PrayerStatus)
  (ps : list PrayerEntry) :
  id st = k ->
  countMarked k' (ps ++ [Status st])
  = (countMarked k' ps + if (k =? k')%string then 1 else 0)%nat.
Proof.
  intros <-. unfold countMarked. rewrite filter_app, length_app. simpl.
  unfold hasId. simpl. destruct (id st =? k')%string; reflexivity.
Qed.

(** X16. Marking a prayer that is not in the list and marking it again
    with the same type leaves the daily state as it was. *)
Theorem markPrayer_round_trip (now now' : string) (k : string)
  (t : PrayerType) (d : DailyState) :
  find (hasId k) (prayers d) = None ->
  prayers (markPrayer now k t d)
  = (prayers d ++ [Status (mkPrayerStatus k t now)])%list /\
  markPrayer now' k t (markPrayer now k t d) = d.
Proof.
  intro Habsent. destruct d as [dt ts pr hy nn ar mi ps]. simpl in *.
  unfold markPrayer. simpl. rewrite Habsent. simpl. split; [reflexivity|].
  unfold with_prayers. simpl.
  assert (Hfound : find (hasId k) (ps ++ [Status (mkPrayerStatus k t now)])
                   = Some (Status (mkPrayerStatus k t now))).
  { clear - Habsent. induction ps as [|p ps IH]; simpl in *.
    - unfold hasId. simpl. rewrite String.eqb_refl. reflexivity.
    - destruct (hasId k p); [discriminate|]. apply IH. exact Habsent. }
  rewrite Hfound. simpl.
  replace (PrayerType_eqb t t) with true by (destruct t; reflexivity).
  rewrite filter_app. simpl. unfold hasId at 2. simpl.
  rewrite String.eqb_refl. simpl.
  rewrite (proj1 (find_none_filter k ps Habsent)), app_nil_r. reflexivity.
Qed.

Lemma markPrayer_round_trip_witness :
  markPrayer "2024-01-01T13:05:00.000Z" "dhuhr" alone
    (markPrayer "2024-01-01T13:00:00.000Z" "dhuhr" alone sampleDaily)
  = sampleDaily.
Proof.
  apply (proj2 (markPrayer_round_trip "2024-01-01T13:00:00.000Z"
                  "2024-01-01T13:05:00.000Z" "dhuhr" alone sampleDaily
                  eq_refl)).
Defined.

(** X17. [markPrayer] keeps the list free of duplicate ids: if no id is
    carried by two entries before, none is after; the marked id ends up
    on no entry when it was there with the same type, and on exactly one
    otherwise. *)
Theorem markPrayer_keeps_ids_unique (now : string) (k : string)
  (t : PrayerType) (d : DailyState) :
  (forall k', (countMarked k' (prayers d) <= 1)%nat) ->
  (forall k', (countMarked k' (prayers (markPrayer now k t d)) <= 1)%nat) /\
  countMarked k (prayers (markPrayer now k t d))
  = match find (hasId k) (prayers d) with
    | Some (Status st) => if PrayerType_eqb (type st) t then 0%nat else 1%nat
    | _ => 1%nat
    end.
Proof.
  intro Huniq. unfold markPrayer. simpl.
  destruct (find (hasId k) (prayers d)) as [p|] eqn:Hfind.
  - destruct (find_some_marked k _ p Hfind) as (st & -> & Hid & Hone).
    pose proof (Huniq k) as Hk.
    destruct (PrayerType_eqb (type st) t); simpl.
    + split.
      * intro k'. pose proof (proj1 (countMarked_removed k k' (prayers d))).
        specialize (Huniq k'). lia.
      * apply (proj2 (countMarked_removed k k (prayers d))).
    + split.
      * intro k'. rewrite countMarked_retype. apply Huniq.
      * rewrite countMarked_retype. lia.
  - destruct (find_none_filter k _ Hfind) as [_ Hzero]. simpl. split.
    + intro k'. rewrite (countMarked_added k k') by reflexivity.
      destruct (String.eqb_spec k k') as [<-|Hneq].
      * rewrite Hzero. lia.
      * specialize (Huniq k'). lia.
    + rewrite (countMarked_added k k) by reflexivity.
      rewrite Hzero, String.eqb_refl. reflexivity.
Qed.

Lemma markPrayer_keeps_ids_unique_witness :
  countMarked "fajr"
    (prayers (markPrayer "2024-01-01T13:00:00.000Z" "fajr" alone sampleDaily))
  = 1%nat.
Proof.
  assert (Huniq : forall k', (countMarked k' (prayers sampleDaily) <= 1)%nat).
  { intro k'. unfold countMarked.
    change (prayers sampleDaily) with [Status fajrJamat]. cbn [filter].
    destruct (hasId k' (Status fajrJamat)); simpl; lia. }
  exact (proj2 (markPrayer_keeps_ids_unique "2024-01-01T13:00:00.000Z"
                  "fajr" alone sampleDaily Huniq)).
Defined.

End PrayerMarkFacts.

Section QuickPrayerFacts.
Import App.

Lemma find_filter {X : Type} (f : X -> bool) (l : list X) :
  find f l = hd_error (filter f l).
Proof.
  induction l as [|x l IH]; simpl; [reflexivity|].
  destruct (f x); [reflexivity|exact IH].
Qed.

Lemma includes_find (k : string) (ps : list PrayerEntry) :
  includes (map idOf ps) k = false -> find (hasId k) ps = None.
Proof.
  unfold includes, hasId. induction ps as [|p ps IH]; simpl; [reflexivity|].
  destruct (idOf p) as [k'|]; simpl.
  - destruct (k' =? k)%string; simpl; [discriminate|exact IH].
  - exact IH.
Qed.

Lemma includes_added (k k' : string) (t : PrayerType) (now : string)
  (ps : list PrayerEntry) :
  includes (map idOf (ps ++ [Status (mkPrayerStatus k t now)])) k'
  = includes (map idOf ps) k' || (k =? k')%string.
Proof.
  unfold includes. rewrite map_app, existsb_app. simpl.
  rewrite orb_false_r. reflexivity.
Qed.

Lemma filter_without_head (k : string) (rest : list string) :
  ~ In k rest -> filter (fun k' => negb (k =? k')%string) rest = rest.
Proof.
  induction rest as [|x rest IH]; simpl; [reflexivity|].
  intro Hnot. destruct (String.eqb_spec k x) as [->|Hneq].
  - contradiction Hnot. left. reflexivity.
  - simpl. rewrite IH; [reflexivity|]. intro Hin. apply Hnot. right. exact Hin.
Qed.

Lemma filter_twice {X : Type} (f g : X -> bool) (l : list X) :
  filter f (filter g l) = filter (fun x => f x && g x) l.
Proof.
  induction l as [|x l IH]; simpl; [reflexivity|].
  destruct (g x); simpl; [|rewrite andb_false_r; exact IH].
  rewrite andb_true_r. destruct (f x); rewrite IH; reflexivity.
Qed.

Lemma PRAYER_ORDER_NoDup : NoDup PRAYER_ORDER.
Proof.
  unfold PRAYER_ORDER.
  repeat (constructor; [simpl; intuition discriminate|]). constructor.
Qed.

Lemma quick_step (now : string) (d : DailyState) (k : string)
  (rest : list string) :
  remainingPrayers d = k :: rest ->
  prayers (handleQuickPrayer now d)
  = (prayers d ++ [Status (mkPrayerStatus k alone now)])%list /\
  remainingPrayers (handleQuickPrayer now d) = rest.
Proof.
  intro Hrem.
  assert (Hmissing : includes (map idOf (prayers d)) k = false).
  { assert (Hin : In k (remainingPrayers d)) by (rewrite Hrem; left; reflexivity).
    unfold remainingPrayers in Hin. apply filter_In in Hin as [_ Hk].
    apply negb_true_iff in Hk. exact Hk. }
  assert (Hprayers : prayers (handleQuickPrayer now d)
                     = (prayers d ++ [Status (mkPrayerStatus k alone now)])%list).
  { unfold handleQuickPrayer. rewrite find_filter.
    fold (remainingPrayers d). rewrite Hrem. simpl.
    unfold markPrayer. rewrite (includes_find k _ Hmissing). reflexivity. }
  split; [exact Hprayers|].
  unfold remainingPrayers. rewrite Hprayers.
  rewrite (filter_ext _ (fun k' => negb (k =? k')%string
                                   && negb (includes (map idOf (prayers d)) k'))).
  - rewrite <- filter_twice. fold (remainingPrayers d). rewrite Hrem. simpl.
    rewrite String.eqb_refl. simpl. apply filter_without_head.
    pose proof PRAYER_ORDER_NoDup as Hnodup.
    apply (NoDup_filter (fun k' => negb (includes (map idOf (prayers d)) k')))
      in Hnodup.
    fold (remainingPrayers d) in Hnodup. rewrite Hrem in Hnodup.
    inversion Hnodup; assumption.
  - intro k'. rewrite includes_added, negb_orb. apply andb_comm.
Qed.

Lemma quick_done (now : string) (d : DailyState) :
  remainingPrayers d = [] -> handleQuickPrayer now d = d.
Proof.
  intro Hrem. unfold handleQuickPrayer. rewrite find_filter.
  fold (remainingPrayers d). rewrite Hrem. reflexivity.
Qed.

Lemma quick_remaining (now : string) (d : DailyState) :
  remainingPrayers (handleQuickPrayer now d) = tl (remainingPrayers d).
Proof.
  destruct (remainingPrayers d) as [|k rest] eqn:Hrem.
  - rewrite quick_done by exact Hrem. exact Hrem.
  - exact (proj2 (quick_step now d k rest Hrem)).
Qed.

(** X18. The quick-prayer button marks the first prayer of the fixed
    order that is not in the list yet, as prayed alone, and never removes
    or changes an entry; with all five marked it does nothing.  Five
    presses leave no prayer of the order unmarked, whatever the list held
    before. *)
Theorem quickPrayer_marks_next (now : string) (d : DailyState) :
  remainingPrayers (handleQuickPrayer now d) = tl (remainingPrayers d) /\
  (forall k rest, remainingPrayers d = k :: rest ->
     prayers (handleQuickPrayer now d)
     = (prayers d ++ [Status (mkPrayerStatus k alone now)])%list) /\
  (remainingPrayers d = [] -> handleQuickPrayer now d = d) /\
  remainingPrayers (Nat.iter 5 (handleQuickPrayer now) d) = [].
Proof.
  split; [apply quick_remaining|]. split; [|split; [apply quick_done|]].
  - intros k rest Hrem. exact (proj1 (quick_step now d k rest Hrem)).
  - simpl. rewrite !quick_remaining.
    assert (Hlen : (List.length (remainingPrayers d) <= 5)%nat).
    { unfold remainingPrayers.
      eapply Nat.le_trans; [apply filter_length_le|]. reflexivity. }
    destruct (remainingPrayers d) as [|k1 [|k2 [|k3 [|k4 [|k5 [|k6 l]]]]]];
      try reflexivity.
    simpl in Hlen. lia.
Qed.

Lemma quickPrayer_marks_next_witness :
  prayers (handleQuickPrayer "2024-01-01T13:00:00.000Z" sampleDaily)
  = [Status fajrJamat;
     Status (mkPrayerStatus "dhuhr" alone "2024-01-01T13:00:00.000Z")].
Proof.
  apply (proj1 (proj2 (quickPrayer_marks_next "2024-01-01T13:00:00.000Z"
                         sampleDaily))
           "dhuhr" ["asr"; "maghrib"; "isha"]).
  reflexivity.
Defined.

End QuickPrayerFacts.

Section StatsFacts.
Import App.

Lemma sum_app (l : list Z) (x : Z) : sum (l ++ [x]) = sum l + x.
Proof. unfold sum. rewrite fold_left_app. reflexivity. Qed.

(** X19. [recordWorkout] counts the workout and its time, stamps today as
    the last workout day and clears the active workout without touching
    the history archive.  From a non-negative streak the new streak is at
    least 1: one more than before when the last workout was yesterday, 1
    when there was none, and unchanged by a second workout on the same
    day. *)
Theorem recordWorkout_streak (today yesterday nowIso nowIso' : string)
  (wid wid' : string) (dur dur' n n' : Z) (s : AppState) :
  0 <= streak (stats s) ->
  let s1 := recordWorkout today yesterday nowIso wid dur n s in
  let s2 := recordWorkout today yesterday nowIso' wid' dur' n' s1 in
  1 <= streak (stats s1) /\
  streak (stats s2) = streak (stats s1) /\
  (lastWorkout (stats s) = Some yesterday -> yesterday <> today ->
   yesterday <> EmptyString -> streak (stats s1) = streak (stats s) + 1) /\
  (lastWorkout (stats s) = None -> streak (stats s1) = 1) /\
  totalWorkouts (stats s2) = totalWorkouts (stats s) + 2 /\
  totalTime (stats s2) = totalTime (stats s) + dur + dur' /\
  lastWorkout (stats s1) = Some today /\
  activeWorkout s1 = None /\ history s1 = history s.
Proof.
  intro Hstreak. simpl. unfold optionIs, truthyDate, truthy.
  rewrite String.eqb_refl.
  assert (Hfirst :
            1 <= (if match lastWorkout (stats s) with
                     | Some s' => (s' =? today)%string
                     | None => false
                     end
                  then Z.max 1 (streak (stats s))
                  else if match lastWorkout (stats s) with
                          | Some s0 => negb (s0 =? EmptyString)%string
                          | None => false
                          end
                       then if match lastWorkout (stats s) with
                               | Some s' => (s' =? yesterday)%string
                               | None => false
                               end
                            then streak (stats s) + 1 else 1
                       else 1)).
  { destruct (lastWorkout (stats s)) as [l|]; [|lia].
    destruct (l =? today)%string; [lia|].
    destruct (negb (l =? EmptyString)%string); [|lia].
    destruct (l =? yesterday)%string; lia. }
  split; [exact Hfirst|]. split; [lia|]. split; [|split].
  - intros -> Hneq Hnonempty.
    rewrite (proj2 (String.eqb_neq _ _) Hneq).
    rewrite (proj2 (String.eqb_neq _ _) Hnonempty), String.eqb_refl.
    reflexivity.
  - intros ->. reflexivity.
  - repeat split; lia.
Qed.

Lemma recordWorkout_streak_witness :
  streak (stats (recordWorkout "2024-01-02" "2024-01-01"
                   "2024-01-02T18:30:00.000Z" "push-day" 1500 5 sampleState))
  = streak (stats sampleState) + 1.
Proof.
  assert (H0 : 0 <= streak (stats sampleState)) by (simpl; lia).
  apply (proj1 (proj2 (proj2 (recordWorkout_streak "2024-01-02" "2024-01-01"
                                "2024-01-02T18:30:00.000Z"
                                "2024-01-02T19:30:00.000Z"
                                "push-day" "push-day" 1500 1500 5 5
                                sampleState H0)))).
  - reflexivity.
  - discriminate.
  - discriminate.
Defined.

(** X20. A workout recorded with a timestamp of a given day is counted in
    the history record later built for that day: one more workout and its
    duration added; records built for days the timestamp does not start
    with are unaffected. *)
Theorem recorded_workout_is_archived (today yesterday nowIso : string)
  (wid : string) (dur n : Z) (s : AppState) (staleDaily : DailyState)
  (day : string) :
  let s1 := recordWorkout today yesterday nowIso wid dur n s in
  (String.prefix day nowIso = true ->
   workout_count (makeRecord (stats s1) staleDaily day)
   = workout_count (makeRecord (stats s) staleDaily day) + 1 /\
   workout_duration (makeRecord (stats s1) staleDaily day)
   = workout_duration (makeRecord (stats s) staleDaily day) + dur) /\
  (String.prefix day nowIso = false ->
   makeRecord (stats s1) staleDaily day = makeRecord (stats s) staleDaily day).
Proof.
  simpl. unfold makeRecord. simpl. rewrite filter_app. simpl. split.
  - intros ->. rewrite map_app. cbn [map]. rewrite sum_app.
    unfold lengthZ. rewrite length_app. cbn [List.length].
    split; [lia|reflexivity].
  - intros ->. rewrite app_nil_r. reflexivity.
Qed.

Lemma recorded_workout_is_archived_witness :
  workout_count
    (makeRecord
       (stats (recordWorkout "2024-01-01" "2023-12-31"
                 "2024-01-01T20:00:00.000Z" "legs" 1200 4 sampleState))
       sampleDaily "2024-01-01")
  = workout_count (makeRecord (stats sampleState) sampleDaily "2024-01-01") + 1.
Proof.
  apply (proj1 (proj1 (recorded_workout_is_archived "2024-01-01" "2023-12-31"
                         "2024-01-01T20:00:00.000Z" "legs" 1200 4
                         sampleState sampleDaily "2024-01-01") eq_refl)).
Defined.

Lemma filteri_outside {X : Type} (n : Z) (l : list X) (i : Z) :
  n < i \/ i + lengthZ l <= n ->
  filteri (fun _ j => negb (j =? n)) i l = l.
Proof.
  revert i. induction l as [|x l IH]; intros i Hout; simpl; [reflexivity|].
  unfold lengthZ in Hout. simpl List.length in Hout.
  destruct (Z.eqb_spec i n); [lia|]. simpl.
  rewrite IH; [reflexivity|]. unfold lengthZ. lia.
Qed.

Lemma filteri_last {X : Type} (n : Z) (l : list X) (x : X) (i : Z) :
  n = i + lengthZ l ->
  filteri (fun _ j => negb (j =? n)) i (l ++ [x]) = l.
Proof.
  revert i. induction l as [|y l IH]; intros i Hn; simpl.
  - unfold lengthZ in Hn. simpl in Hn.
    destruct (Z.eqb_spec i n); [reflexivity|lia].
  - unfold lengthZ in Hn. simpl List.length in Hn.
    destruct (Z.eqb_spec i n); [lia|]. simpl. f_equal.
    apply IH. unfold lengthZ. lia.
Qed.

Lemma setCustomWorkouts_same (f : list WorkoutPreset -> list WorkoutPreset)
  (s : AppState) :
  f (customWorkouts s) = customWorkouts s -> setCustomWorkouts f s = s.
Proof. intro H. unfold setCustomWorkouts. rewrite H. destruct s; reflexivity. Qed.

Lemma with_exercises_same (w : WorkoutPreset) :
  with_exercises (exercises w) w = w.
Proof. destruct w; reflexivity. Qed.

Lemma filteri_remove {X : Type} (target : Z) (n : nat) (l : list X) (i : Z) :
  target = i + Z.of_nat n ->
  filteri (fun _ j => negb (j =? target)) i l = (firstn n l ++ skipn (S n) l)%list.
Proof.
  revert n i. induction l as [|x l IH]; intros n i Ht.
  - destruct n; reflexivity.
  - destruct n as [|n].
    + simpl. destruct (Z.eqb_spec i target); [|lia]. simpl.
      apply filteri_outside. lia.
    + cbn [filteri firstn skipn app].
      destruct (Z.eqb_spec i target); [lia|]. simpl negb. cbv iota.
      f_equal. apply IH. lia.
Qed.

(** X21. [deleteExercise] never touches a workout with another id, nor any
    other part of the application state, and keeps the number of workouts.
    In a workout with the given id and an index inside its exercise list,
    exactly the exercise at that index is removed (the ones before and
    after it stay, in order) and the workout's other fields are kept; with
    an index outside the list the state is unchanged.  Deleting at the
    position [addExercise] appended to undoes the addition. *)
Theorem deleteExercise_bounds (wid : string) (index : Z) (e : Timer.Exercise)
  (s : AppState) :
  (forall (i : nat) (w : WorkoutPreset),
     nth_error (customWorkouts s) i = Some w -> preset_id w <> wid ->
     nth_error (customWorkouts (deleteExercise wid index s)) i = Some w) /\
  (forall (i : nat) (w : WorkoutPreset),
     nth_error (customWorkouts s) i = Some w -> preset_id w = wid ->
     0 <= index < lengthZ (exercises w) ->
     exists w', nth_error (customWorkouts (deleteExercise wid index s)) i
                = Some w' /\
       exercises w'
       = (firstn (Z.to_nat index) (exercises w)
            ++ skipn (S (Z.to_nat index)) (exercises w))%list /\
       lengthZ (exercises w') = lengthZ (exercises w) - 1 /\
       with_exercises (exercises w) w' = w) /\
  List.length (customWorkouts (deleteExercise wid index s))
  = List.length (customWorkouts s) /\
  setCustomWorkouts (fun _ => customWorkouts s) (deleteExercise wid index s)
  = s /\
  ((forall w, In w (customWorkouts s) -> preset_id w = wid ->
      index < 0 \/ lengthZ (exercises w) <= index) ->
   deleteExercise wid index s = s) /\
  ((forall w, In w (customWorkouts s) -> preset_id w = wid ->
      lengthZ (exercises w) = index) ->
   deleteExercise wid index (addExercise wid e s) = s).
Proof.
  split; [|split; [|split; [|split; [|split]]]].
  - intros i w Hi Hid. unfold deleteExercise, setCustomWorkouts. simpl.
    rewrite nth_error_map, Hi. simpl.
    apply String.eqb_neq in Hid. rewrite Hid. reflexivity.
  - intros i w Hi Hid Hin. unfold deleteExercise, setCustomWorkouts. simpl.
    rewrite nth_error_map, Hi. simpl.
    apply String.eqb_eq in Hid. rewrite Hid.
    eexists. split; [reflexivity|]. unfold with_exercises. simpl.
    rewrite (filteri_remove index (Z.to_nat index) (exercises w) 0) by lia.
    split; [reflexivity|]. split; [|destruct w; reflexivity].
    unfold lengthZ in *. rewrite length_app, length_firstn, length_skipn. lia.
  - unfold deleteExercise, setCustomWorkouts. simpl. apply length_map.
  - destruct s; reflexivity.
  - intro Hout. unfold deleteExercise. apply setCustomWorkouts_same.
    rewrite <- (map_id (customWorkouts s)) at 2.
    apply map_ext_in. intros w Hin.
    destruct (String.eqb_spec (preset_id w) wid) as [Hid|_]; [|reflexivity].
    rewrite filteri_outside; [apply with_exercises_same|].
    specialize (Hout w Hin Hid). lia.
  - intro Hlen. unfold deleteExercise, addExercise, setCustomWorkouts. simpl.
    destruct s as [u st hi da aw cw ne ve]. simpl in *. f_equal.
    rewrite map_map. rewrite <- (map_id cw) at 2.
    apply map_ext_in. intros w Hin.
    destruct (preset_id w =? wid)%string eqn:Hid; simpl; rewrite Hid;
      [|reflexivity].
    apply String.eqb_eq in Hid. rewrite <- (Hlen w Hin Hid).
    unfold with_exercises. simpl.
    rewrite (filteri_last (lengthZ (exercises w)) (exercises w) e 0)
      by reflexivity.
    destruct w; reflexivity.
Qed.

Lemma deleteExercise_bounds_witness :
  exists w',
    nth_error
      (customWorkouts
         (deleteExercise "custom-1" 1
            (setCustomWorkouts
               (fun _ => [mkWorkoutPreset "custom-1" "Mine" "star"
                            Timer.threeExercises None]) sampleState))) 0
    = Some w' /\
    exercises w'
    = (firstn 1 Timer.threeExercises ++ skipn 2 Timer.threeExercises)%list /\
    lengthZ (exercises w') = 2 /\
    with_exercises Timer.threeExercises w'
    = mkWorkoutPreset "custom-1" "Mine" "star" Timer.threeExercises None.
Proof.
  apply (proj1 (proj2 (deleteExercise_bounds "custom-1" 1 Timer.firstExercise
                         (setCustomWorkouts
                            (fun _ => [mkWorkoutPreset "custom-1" "Mine" "star"
                                         Timer.threeExercises None])
                            sampleState)))
           0%nat
           (mkWorkoutPreset "custom-1" "Mine" "star" Timer.threeExercises None)).
  - reflexivity.
  - reflexivity.
  - vm_compute. split; [discriminate|reflexivity].
Defined.

(** X22. The daily container with [saveDailyProgress] as its callback: a
    staleness check on a stale envelope resets the live daily state to
    the default and archives exactly one record for the stale date; a
    second check before the persist effect has run calls the callback
    again but leaves the application state as the first one left it. *)
Theorem daily_rollover_archives_once (defaultDaily : DailyState)
  (s : Persisted.Sys DailyState AppState)
  (d : Persisted.PersistedData DailyState) :
  Persisted.storage s = Some (Persisted.Json d) ->
  Persisted.date d <> Persisted.clock s ->
  countDate (Persisted.date d) (history (Persisted.world s)) = 0%nat ->
  let s1 := Persisted.stalenessCheck defaultDaily true (Some rollover) s in
  let s2 := Persisted.stalenessCheck defaultDaily true (Some rollover) s1 in
  Persisted.live s1 = defaultDaily /\
  countDate (Persisted.date d) (history (Persisted.world s1)) = 1%nat /\
  In (makeRecord (stats (Persisted.world s)) (Persisted.value d)
        (Persisted.date d))
     (history (Persisted.world s1)) /\
  s2 = s1.
Proof.
  intros Hstored Hstale Hnone. simpl.
  destruct s as [today stored current lines a]. simpl in *. subst stored.
  unfold Persisted.stalenessCheck, Persisted.checkMidnight,
    Persisted.try_catch, Persisted.bindM, Persisted.getItem,
    Persisted.JSON_parse, Persisted.ret, Persisted.getTodayDateString,
    Persisted.call, Persisted.setState, rollover. simpl.
  rewrite (proj2 (String.eqb_neq _ _) Hstale). simpl.
  rewrite (proj2 (String.eqb_neq _ _) Hstale). simpl.
  pose proof (countDate_archive (Persisted.date d) (stats a)
                (Persisted.value d) (history a)) as Hcount.
  rewrite Hnone in Hcount. simpl in Hcount.
  split; [reflexivity|]. split; [exact Hcount|]. split.
  - rewrite archive_absent by exact Hnone.
    apply (Permutation_in _ (Permutation_sym (sort_Permutation _ _ _))).
    apply in_or_app. right. left. reflexivity.
  - f_equal. unfold saveDailyProgress, setHistory. simpl. f_equal.
    apply archive_present. rewrite Hcount. discriminate.
Qed.

Lemma daily_rollover_archives_once_witness :
  countDate "2024-01-01"
    (history (Persisted.world
                (Persisted.stalenessCheck sampleDaily true (Some rollover)
                   staleDailySys)))
  = 1%nat.
Proof.
  apply (proj1 (proj2 (daily_rollover_archives_once sampleDaily staleDailySys
                         (Persisted.mkPersistedData "2024-01-01" sampleDaily)
                         eq_refl ltac:(discriminate) eq_refl))).
Defined.

End StatsFacts.

Section SettleFacts.
Import App.

Lemma seen_spec (k : string) (seen : list string) :
  existsb (fun k' => (k' =? k)%string) seen = true <-> In k seen.
Proof.
  rewrite existsb_exists. split.
  - intros (x & Hin & Heq). apply String.eqb_eq in Heq. subst. exact Hin.
  - intro Hin. exists k. split; [exact Hin|apply String.eqb_refl].
Qed.

Lemma dedupFirst_In (l : list PrayerStatus) (seen : list string)
  (p : PrayerStatus) :
  In p (dedupFirst seen l) -> In p l /\ ~ In (id p) seen.
Proof.
  revert seen. induction l as [|q l IH]; intros seen; simpl; [tauto|].
  destruct (existsb (fun k => (k =? id q)%string) seen) eqn:Hseen.
  - intro Hin. destruct (IH _ Hin). auto.
  - intros [<-|Hin].
    + split; [auto|]. intro Hq. apply seen_spec in Hq. congruence.
    + destruct (IH _ Hin) as [Hl Hnot]. split; [auto|].
      intro Hq. apply Hnot. apply in_or_app. left. exact Hq.
Qed.

Lemma dedupFirst_NoDup (l : list PrayerStatus) (seen : list string) :
  NoDup (map id (dedupFirst seen l)).
Proof.
  revert seen. induction l as [|q l IH]; intro seen; simpl; [constructor|].
  destruct (existsb (fun k => (k =? id q)%string) seen); [apply IH|].
  simpl. constructor; [|apply IH].
  intro Hin. apply in_map_iff in Hin as (p & Hid & Hp).
  apply dedupFirst_In in Hp as [_ Hnot]. apply Hnot.
  apply in_or_app. right. left. symmetry. exact Hid.
Qed.

Lemma dedupFirst_fixed (l : list PrayerStatus) (seen : list string) :
  NoDup (map id l) -> (forall p, In p l -> ~ In (id p) seen) ->
  dedupFirst seen l = l.
Proof.
  revert seen. induction l as [|q l IH]; intros seen Hnodup Hfresh; simpl;
    [reflexivity|].
  inversion Hnodup as [|? ? Hq Hrest]; subst.
  destruct (existsb (fun k => (k =? id q)%string) seen) eqn:Hseen.
  - apply seen_spec in Hseen. contradiction (Hfresh q (or_introl eq_refl)).
  - f_equal. apply IH; [exact Hrest|].
    intros p Hp Hin. apply in_app_or in Hin as [Hin|[Heq|[]]].
    + exact (Hfresh p (or_intror Hp) Hin).
    + apply Hq. rewrite Heq. apply in_map. exact Hp.
Qed.

Lemma NoDup_map_filter (f : PrayerStatus -> bool) (l : list PrayerStatus) :
  NoDup (map id l) -> NoDup (map id (filter f l)).
Proof.
  induction l as [|q l IH]; simpl; [auto|].
  intro H. inversion H as [|? ? Hq Hrest]; subst.
  destruct (f q); simpl; [|apply IH; exact Hrest].
  constructor; [|apply IH; exact Hrest].
  intro Hin. apply Hq. apply in_map_iff in Hin as (p & Hid & Hp).
  apply filter_In in Hp as [Hp _]. rewrite <- Hid. apply in_map. exact Hp.
Qed.

Lemma kept_Status (l : list PrayerStatus) :
  map (toStatus EmptyString) (filter kept (map Status l))
  = filter (fun p => truthy (id p)) l.
Proof.
  induction l as [|q l IH]; simpl; [reflexivity|].
  destruct (truthy (id q)); simpl; rewrite IH; reflexivity.
Qed.

Lemma toStatus_Status (now now' : string) (l : list PrayerEntry) :
  existsb isString l = false ->
  map (toStatus now) l = map (toStatus now') l.
Proof.
  induction l as [|[s|st] l IH]; simpl; [reflexivity|discriminate|].
  intro H. rewrite IH by exact H. reflexivity.
Qed.

(** One more run of the effect on a list of objects with distinct ids
    only drops the one with the empty id, if there is one. *)
Lemma normalized_objects (now : string) (l : list PrayerStatus) :
  NoDup (map id l) ->
  normalized now (map Status l)
  = map Status (filter (fun p => truthy (id p)) l).
Proof.
  intro Hnodup. rewrite normalized_spec. unfold spec_normalize.
  rewrite (toStatus_Status now EmptyString).
  - rewrite kept_Status. f_equal. apply dedupFirst_fixed.
    + apply NoDup_map_filter. exact Hnodup.
    + intros p _ Hin. destruct Hin.
  - clear. induction l as [|q l IH]; simpl; [reflexivity|].
    destruct (truthy (id q)); simpl; exact IH.
Qed.

Lemma cleanup_fixed (now : string) (ps : list PrayerEntry) :
  normalized now ps = ps -> cleanup now ps = None.
Proof.
  unfold normalized. destruct (cleanup now ps) as [l|] eqn:Hc; [|reflexivity].
  intro Heq. contradiction (proj2 (cleanup_Some now ps l Hc)).
Qed.

Lemma filter_all {X : Type} (f : X -> bool) (l : list X) :
  (forall x, In x l -> f x = true) -> filter f l = l.
Proof.
  induction l as [|x l IH]; intro H; simpl; [reflexivity|].
  rewrite (H x (or_introl eq_refl)). f_equal.
  apply IH. intros y Hy. apply H. right. exact Hy.
Qed.

(** X23. The clean-up effect, which runs again whenever it has changed
    the prayer list, settles: on the list it leaves after two runs it
    makes no further change, and after a single run when no entry has an
    empty id. *)
Theorem cleanup_settles (now1 now2 now3 : string) (ps : list PrayerEntry) :
  cleanup now3 (normalized now2 (normalized now1 ps)) = None /\
  (Forall (fun p => entry_id p <> EmptyString) ps ->
   cleanup now2 (normalized now1 ps) = None).
Proof.
  assert (Hfirst : normalized now1 ps
                   = map Status
                       (dedupFirst [] (map (toStatus now1) (filter kept ps))))
    by apply normalized_spec.
  pose proof (dedupFirst_NoDup (map (toStatus now1) (filter kept ps)) [])
    as Hnodup.
  rewrite Hfirst. split.
  - rewrite (normalized_objects now2 _ Hnodup). apply cleanup_fixed.
    rewrite normalized_objects by (apply NoDup_map_filter; exact Hnodup).
    f_equal. rewrite filter_twice. apply filter_ext. intro p.
    apply andb_diag.
  - intro Hids. apply cleanup_fixed.
    rewrite (normalized_objects now2 _ Hnodup). f_equal.
    apply filter_all. intros p Hp.
    apply dedupFirst_In in Hp as [Hp _].
    apply in_map_iff in Hp as (e & <- & He).
    apply filter_In in He as [He _].
    pose proof (proj1 (Forall_forall _ _) Hids e He) as Hne.
    rewrite entry_id_toStatus. unfold truthy.
    apply negb_true_iff. apply String.eqb_neq. exact Hne.
Qed.

Lemma cleanup_settles_witness :
  cleanup "2024-01-02T00:00:01.000Z"
    (normalized "2024-01-02T00:00:00.000Z" legacyPrayers) = None.
Proof.
  apply (proj2 (cleanup_settles "2024-01-02T00:00:00.000Z"
                  "2024-01-02T00:00:01.000Z" "2024-01-02T00:00:02.000Z"
                  legacyPrayers)).
  repeat constructor; simpl; discriminate.
Defined.

End SettleFacts.

Section ToggleFacts.
Import Timer.

(** X24. In a session phase (PREP, WORK, REST) two toggles give back the
    hook unchanged.  In IDLE the first toggle starts the session and the
    second only pauses it.  In COMPLETE a toggle does not start a new
    session: the phase stays COMPLETE and only [isRunning] is set. *)
Theorem toggle_twice (h : Hook) :
  (phase (state h) = PREP \/ phase (state h) = WORK \/ phase (state h) = REST ->
   toggle (toggle h) = h) /\
  (phase (state h) = IDLE ->
   toggle h = start h /\ toggle (toggle h) = pause (start h)) /\
  (phase (state h) = COMPLETE -> isRunning (state h) = false ->
   toggle h = resume h /\ phase (state (toggle h)) = COMPLETE).
Proof.
  destruct h as [exs [ph tr cs ts ci te wt rt run]]. simpl.
  split; [|split].
  - intros [-> | [-> | ->]]; destruct run; reflexivity.
  - intros ->. split; reflexivity.
  - intros -> ->. split; reflexivity.
Qed.

Lemma toggle_twice_witness :
  toggle (toggle (mkHook twoExercises restAfterFirst))
  = mkHook twoExercises restAfterFirst.
Proof.
  apply (proj1 (toggle_twice (mkHook twoExercises restAfterFirst))).
  right. right. reflexivity.
Defined.

End ToggleFacts.

Section CurrentExerciseFacts.
Import Timer.

Lemma init_timesCurrent (exercises : list Exercise) (h : Hook) :
  timesCurrent (init exercises h).
Proof.
  unfold timesCurrent, currentExercise, init. simpl.
  destruct exercises as [|e l]; simpl; [reflexivity|].
  repeat split; reflexivity.
Qed.

Lemma step_timesCurrent (h h' : Hook) (o : Op) :
  (forall index, o <> OpSetExercise index) ->
  timesCurrent h -> step h o = Ok h' -> timesCurrent h'.
Proof.
  intros Hnojump Hcur Hstep. destruct o; simpl in Hstep.
  - injection Hstep as <-. apply init_timesCurrent.
  - injection Hstep as <-. exact Hcur.
  - injection Hstep as <-. exact Hcur.
  - injection Hstep as <-. exact Hcur.
  - injection Hstep as <-. unfold tick, dispatch. simpl.
    destruct (isRunning (state h)); exact Hcur.
  - injection Hstep as <-. unfold toggle.
    destruct (phase (state h)); try exact Hcur;
      destruct (isRunning (state h)); exact Hcur.
  - injection Hstep as <-. apply (init_timesCurrent (exercisesRef h) h).
  - contradiction (Hnojump index). reflexivity.
  - unfold phaseBoundary, phaseTransition in Hstep.
    destruct h as [exs s]. simpl in Hstep.
    unfold timesCurrent, currentExercise in *. simpl in *.
    destruct ((timeRemaining s =? 0) && isRunning s);
      [|injection Hstep as <-; exact Hcur].
    destruct (phase s) eqn:Hphase; simpl in Hstep.
    + injection Hstep as <-. exact Hcur.
    + injection Hstep as <-. simpl. rewrite ?Hphase. exact Hcur.
    + rewrite ?Hphase in Hstep.
      destruct (currentSet s <? totalSets s);
        [|destruct (currentExerciseIndex s <? totalExercises s - 1)];
        simpl in Hstep; injection Hstep as <-; exact Hcur.
    + destruct (currentSet s <? totalSets s);
        [|destruct (currentExerciseIndex s <? totalExercises s - 1)].
      * injection Hstep as <-. exact Hcur.
      * destruct (nthZ exs (currentExerciseIndex s + 1)) as [next|] eqn:Hnext;
          simpl in Hstep; [|discriminate].
        injection Hstep as <-. simpl. rewrite Hnext. repeat split; reflexivity.
      * injection Hstep as <-. exact Hcur.
    + injection Hstep as <-. exact Hcur.
Qed.

(** X25. As long as [setExercise] is not used, after the plan has been
    loaded the hook times the exercise it reports as current: its
    [totalSets], [workTime] and [restTime] are those of
    [currentExercise], and [currentExercise] is null only for an empty
    plan. *)
Theorem current_exercise_is_timed (ops : list Op) (exercises : list Exercise)
  (h0 h : Hook) :
  (forall index, ~ In (OpSetExercise index) ops) ->
  run ops (init exercises h0) = Ok h ->
  timesCurrent h.
Proof.
  intros Hnojump. generalize (init_timesCurrent exercises h0).
  generalize (init exercises h0). clear h0 exercises.
  induction ops as [|o ops IH]; intros h1 Hcur Hrun; simpl in Hrun.
  - injection Hrun as <-. exact Hcur.
  - destruct (step h1 o) as [h2|err] eqn:Hstep; simpl in Hrun; [|discriminate].
    apply (IH (fun index Hin => Hnojump index (or_intror Hin)) h2);
      [|exact Hrun].
    apply (step_timesCurrent h1 h2 o); [|exact Hcur|exact Hstep].
    intros index ->. apply (Hnojump index). left. reflexivity.
Qed.

Lemma current_exercise_is_timed_witness :
  timesCurrent
    (mkHook twoExercises
       {| phase := PREP; timeRemaining := PREP_TIME; currentSet := 1;
          totalSets := 3; currentExerciseIndex := 1; totalExercises := 2;
          workTime := 20; restTime := 7; isRunning := true |}).
Proof.
  apply (current_exercise_is_timed
           ([OpStart] ++ repeat OpTick 5 ++ [OpPhaseBoundary]
            ++ repeat OpTick 10 ++ [OpPhaseBoundary]
            ++ repeat OpTick 5 ++ [OpPhaseBoundary])%list
           twoExercises (mount twoExercises)).
  - intros index Hin. simpl in Hin.
    repeat (destruct Hin as [Hin|Hin]; [discriminate Hin|]). exact Hin.
  - vm_compute. reflexivity.
Defined.

End CurrentExerciseFacts.
